(** * huefy: the manifest verifier and the ANSI escape-code builder

    A shallow embedding of [hue.py] ([ThemeManager.validate_theme]) and of
    [src/huefy/esc_builder.py] ([AnsiEscapeCodeBuilder]), and the properties
    the specification states about them.

    Python text is modelled as [string]; a character is a code point below
    256.  The text read from the manifest is decoded from the bytes of the
    file and may hold any character: it is the list of its code points
    ([Py.text]).  Python integers are [Z], byte strings are [list byte],
    floats are binary64 values ([PrimFloat.float]). *)

From Stdlib Require Import ZArith List String Ascii Bool Lia.
From Stdlib Require Import Init.Byte.
From Stdlib Require Import Numbers.DecimalString.
From Stdlib Require Import Floats.PrimFloat Floats.SpecFloat Floats.FloatOps.
Import ListNotations.

Local Open Scope string_scope.
Local Open Scope Z_scope.

(** ** The Python built-ins the two modules use *)

Module Py.

(** Exceptions.  [ValueError] carries the message of the [raise] statement
    when the repository raises it; when the interpreter does, its message
    for an unpacking (as CPython 3.11 words it) and a short description
    otherwise.  [UnicodeDecodeError] is the error of decoding the bytes of a
    text file: a [ValueError] by its class, not an [IOError]. *)
Inductive exn : Type :=
| ValueError (msg : string)
| IndexError
| OverflowError
| IOError (errno : Z)
| UnicodeDecodeError.

(** The outcome of a call: a returned value or a raised exception. *)
Inductive result (A : Type) : Type :=
| Return (a : A)
| Raise (e : exn).
Arguments Return {A} a.
Arguments Raise {A} e.

Definition bind {A B : Type} (r : result A) (k : A -> result B) : result B :=
  match r with
  | Return a => k a
  | Raise e => Raise e
  end.

Notation "x <- r ;; k" := (bind r (fun x => k))
  (at level 61, r at next level, right associativity).
Notation "' pat <- r ;; k" := (bind r (fun x => match x with pat => k end))
  (at level 61, pat pattern, r at next level, right associativity).

(** The whitespace [int] and [float] drop around a literal: TAB, LF, VT, FF,
    CR, SPACE, NEL and NBSP. *)
Definition is_literal_space (c : ascii) : bool :=
  let n := Z.of_nat (nat_of_ascii c) in
  ((9 <=? n) && (n <=? 13)) || (n =? 32) || (n =? 133) || (n =? 160).

(** [s.lstrip(chars)] with the set of characters given as a predicate. *)
Fixpoint lstrip (p : ascii -> bool) (s : string) : string :=
  match s with
  | EmptyString => EmptyString
  | String c s' => if p c then lstrip p s' else s
  end.

Fixpoint rev_string (s : string) : string :=
  match s with
  | EmptyString => EmptyString
  | String c s' => rev_string s' ++ String c EmptyString
  end.

Definition rstrip (p : ascii -> bool) (s : string) : string :=
  rev_string (lstrip p (rev_string s)).

(** [s.strip(chars)] with the set of characters given as a predicate. *)
Definition strip (p : ascii -> bool) (s : string) : string :=
  rstrip p (lstrip p s).

(** The truth value of a string: non-empty. *)
Definition truthy (s : string) : bool :=
  match s with
  | EmptyString => false
  | String _ _ => true
  end.

(** [s.split(sep)] for a separator of one character: always at least one
    field, empty fields kept. *)
Fixpoint split_on (sep : ascii) (s : string) : list string :=
  match s with
  | EmptyString => [EmptyString]
  | String c s' =>
      if Ascii.eqb c sep then EmptyString :: split_on sep s'
      else match split_on sep s' with
           | [] => [String c EmptyString]
           | f :: fs => String c f :: fs
           end
  end.

(** [s[i:j]] for [0 <= i], [0 <= j]. *)
Definition slice (i j : nat) (s : string) : string :=
  substring i (j - i) s.

(** [s[i:-1]]: from index [i] up to, and without, the last character. *)
Definition slice_to_last (i : nat) (s : string) : string :=
  substring i (String.length s - 1 - i) s.

(** [sep.join(l)]. *)
Fixpoint join (sep : string) (l : list string) : string :=
  match l with
  | [] => EmptyString
  | [x] => x
  | x :: rest => x ++ sep ++ join sep rest
  end.

(** [str(n)] for an integer, as an f-string field prints it. *)
Definition str_int (n : Z) : string :=
  NilZero.string_of_int (Z.to_int n).

(** The value of a digit in bases up to 36 ([_PyLong_DigitValue]). *)
Definition digit_value (c : ascii) : option Z :=
  let n := Z.of_nat (nat_of_ascii c) in
  if (48 <=? n) && (n <=? 57) then Some (n - 48)
  else if (97 <=? n) && (n <=? 122) then Some (n - 87)
  else if (65 <=? n) && (n <=? 90) then Some (n - 55)
  else None.

Definition is_hex_digit (c : ascii) : bool :=
  match digit_value c with
  | Some d => d <? 16
  | None => false
  end.

Definition hex_value (c : ascii) : Z :=
  match digit_value c with
  | Some d => d
  | None => 0
  end.

(** The digits of [int(s, 16)] after sign and prefix: hexadecimal digits,
    single underscores allowed between two digits only.  [acc] is the value
    read so far, [prev_us] tells whether the previous character was an
    underscore, [seen] whether a digit has been read. *)
Fixpoint int16_digits (acc : Z) (prev_us seen : bool) (s : string)
  : option Z :=
  match s with
  | EmptyString => if prev_us || negb seen then None else Some acc
  | String c s' =>
      if Ascii.eqb c "_"%char
      then (if prev_us || negb seen then None
            else int16_digits acc true seen s')
      else match digit_value c with
           | Some d =>
               if d <? 16 then int16_digits (16 * acc + d) false true s'
               else None
           | None => None
           end
  end.

(** [int(s, 16)]: surrounding whitespace is dropped, then an optional sign,
    an optional [0x] or [0X] (which one underscore may follow), then the
    digits. *)
Definition int16 (s : string) : result Z :=
  let body := strip is_literal_space s in
  let '(neg, body) :=
    match body with
    | String "-" r => (true, r)
    | String "+" r => (false, r)
    | _ => (false, body)
    end in
  let '(prefixed, body) :=
    match body with
    | String "0" (String "x" r) => (true, r)
    | String "0" (String "X" r) => (true, r)
    | _ => (false, body)
    end in
  let body :=
    match body with
    | String "_" r => if prefixed then r else body
    | _ => body
    end in
  match int16_digits 0 false false body with
  | Some v => Return (if neg then - v else v)
  | None => Raise (ValueError "invalid literal for int() with base 16")
  end.

(** *** Floats *)

Definition is_digit (c : ascii) : bool :=
  let n := Z.of_nat (nat_of_ascii c) in (48 <=? n) && (n <=? 57).

Definition dec_value (c : ascii) : Z := Z.of_nat (nat_of_ascii c) - 48.

(** The rest of a [digitpart]: digits, each optionally preceded by one
    underscore.  Returns the value, the number of digits and what is left. *)
Fixpoint digitpart_rest (acc : Z) (n : Z) (s : string) : Z * Z * string :=
  match s with
  | EmptyString => (acc, n, s)
  | String c s' =>
      if is_digit c then digitpart_rest (10 * acc + dec_value c) (n + 1) s'
      else if Ascii.eqb c "_"%char then
        match s' with
        | String d s'' =>
            if is_digit d
            then digitpart_rest (10 * acc + dec_value d) (n + 1) s''
            else (acc, n, s)
        | EmptyString => (acc, n, s)
        end
      else (acc, n, s)
  end.

(** An optional [digitpart] continuing the digits [acc]: no digit read
    leaves the input as it is. *)
Definition digitpart_opt (acc : Z) (s : string) : Z * Z * string :=
  match s with
  | String c s' =>
      if is_digit c then digitpart_rest (10 * acc + dec_value c) 1 s'
      else (acc, 0, s)
  | EmptyString => (acc, 0, s)
  end.

(** The exponent of a float literal, when there is one: [e] or [E], an
    optional sign, a [digitpart].  [None] is a syntax error. *)
Definition exponent_opt (s : string) : option (Z * string) :=
  match s with
  | String c s' =>
      if Ascii.eqb c "e"%char || Ascii.eqb c "E"%char then
        let '(neg, s'') :=
          match s' with
          | String "-" r => (true, r)
          | String "+" r => (false, r)
          | _ => (false, s')
          end in
        let '(v, n, r) := digitpart_opt 0 s'' in
        if n =? 0 then None else Some (if neg then - v else v, r)
      else Some (0, s)
  | EmptyString => Some (0, s)
  end.

(** [floatnumber]: the digits read as one integer [d] and the power of ten
    [e] with which the literal denotes [d * 10^e]. *)
Definition floatnumber (s : string) : option (Z * Z) :=
  let '(d, ni, r) := digitpart_opt 0 s in
  let '(d, nf, r) :=
    match r with
    | String "." r' => digitpart_opt d r'
    | _ => (d, 0, r)
    end in
  if ni + nf =? 0 then None
  else match exponent_opt r with
       | Some (e, EmptyString) => Some (d, e - nf)
       | _ => None
       end.

Definition lower (c : ascii) : ascii :=
  let n := nat_of_ascii c in
  if (65 <=? Z.of_nat n) && (Z.of_nat n <=? 90)
  then ascii_of_nat (n + 32) else c.

Fixpoint lower_string (s : string) : string :=
  match s with
  | EmptyString => EmptyString
  | String c s' => String (lower c) (lower_string s')
  end.

(** The binary64 value nearest to [d * 10^e] (ties to even), for [d > 0]:
    the correctly rounded quotient of two integers. *)
Definition nearest_float (neg : bool) (d : positive) (e : Z) : float :=
  let '(num, den) :=
    match e with
    | Zneg p => (d, Pos.pow 10 p)
    | Z0 => (d, 1%positive)
    | Zpos p => (Pos.mul d (Pos.pow 10 p), 1%positive)
    end in
  SF2Prim (SFdiv prec emax (S754_finite neg num 0) (S754_finite false den 0)).

(** [float(s)] on a string: surrounding whitespace is dropped, then an
    optional sign, then [inf], [infinity], [nan] in any case or a decimal
    literal, converted with correct rounding. *)
Definition float_of_string (s : string) : result float :=
  let body := strip is_literal_space s in
  let '(neg, body) :=
    match body with
    | String "-" r => (true, r)
    | String "+" r => (false, r)
    | _ => (false, body)
    end in
  let word := lower_string body in
  if String.eqb word "inf" || String.eqb word "infinity"
  then Return (if neg then neg_infinity else infinity)
  else if String.eqb word "nan" then Return nan
  else match floatnumber body with
       | Some (Z0, _) => Return (if neg then neg_zero else zero)
       | Some (Zpos d, e) => Return (nearest_float neg d e)
       | _ => Raise (ValueError "could not convert string to float")
       end.

(** [int(x)] on a float: truncation toward zero; not defined on NaN and on
    the infinities. *)
Definition int_of_float (x : float) : result Z :=
  match Prim2SF x with
  | S754_nan => Raise (ValueError "cannot convert float NaN to integer")
  | S754_infinity _ => Raise OverflowError
  | S754_zero _ => Return 0
  | S754_finite neg m e =>
      let v := match e with
               | Zneg p => Z.quot (Zpos m) (Zpos (Pos.pow 2 p))
               | _ => Zpos m * 2 ^ e
               end in
      Return (if neg then - v else v)
  end.

(** C's [fmod(x, 1.0)]: the fractional part of [x] with the sign of [x],
    which is exact; NaN on NaN and on the infinities. *)
Definition fmod1 (x : float) : float :=
  match Prim2SF x with
  | S754_nan | S754_infinity _ => nan
  | S754_zero _ => x
  | S754_finite neg m e =>
      match e with
      | Zneg p =>
          match Zpos m mod Zpos (Pos.pow 2 p) with
          | Zpos r => SF2Prim (S754_finite neg r e)
          | _ => if neg then neg_zero else zero
          end
      | _ => if neg then neg_zero else zero
      end
  end.

(** [x % 1.0] on floats ([float_rem]): a non-zero remainder takes the sign
    of the divisor, and a zero remainder is [+0.0]. *)
Definition mod1 (x : float) : float :=
  let m := fmod1 x in
  if PrimFloat.eqb m 0 then zero
  else if PrimFloat.ltb m 0 then PrimFloat.add m 1 else m.

(** Whether a call returned the integer [v]. *)
Definition result_Z_eqb (r : result Z) (v : Z) : bool :=
  match r with
  | Return z => z =? v
  | Raise _ => false
  end.

(** [s.count(c)]. *)
Fixpoint count_char (c : ascii) (s : string) : nat :=
  match s with
  | EmptyString => O
  | String a s' => (if Ascii.eqb c a then 1 else 0) + count_char c s'
  end.

(** Every character, by code. *)
Definition all_ascii : list ascii := map ascii_of_nat (seq 0 256).

(** [c in s]. *)
Definition contains (c : ascii) (s : string) : bool :=
  existsb (Ascii.eqb c) (list_ascii_of_string s).

(** [a, b, c = t] on a sequence. *)
Definition unpack3 {A : Type} (t : list A) : result (A * A * A) :=
  match t with
  | [a; b; c] => Return (a, b, c)
  | _ :: _ :: _ :: _ :: _ =>
      Raise (ValueError "too many values to unpack (expected 3)")
  | [_; _] =>
      Raise (ValueError "not enough values to unpack (expected 3, got 2)")
  | [_] =>
      Raise (ValueError "not enough values to unpack (expected 3, got 1)")
  | [] =>
      Raise (ValueError "not enough values to unpack (expected 3, got 0)")
  end.

(** [l[i]] on a list. *)
Definition index {A : Type} (l : list A) (i : nat) : result A :=
  match nth_error l i with
  | Some a => Return a
  | None => Raise IndexError
  end.

(** *** Text of any character *)

(** A [str] as the list of its code points. *)
Definition text : Type := list Z.

Definition text_of_string (s : string) : text :=
  map (fun c => Z.of_nat (nat_of_ascii c)) (list_ascii_of_string s).

(** [a == b] on texts. *)
Fixpoint text_eqb (a b : text) : bool :=
  match a, b with
  | [], [] => true
  | c :: a', d :: b' => (c =? d) && text_eqb a' b'
  | _, _ => false
  end.

(** The truth value of a text: non-empty. *)
Definition nonempty (t : text) : bool :=
  match t with
  | [] => false
  | _ :: _ => true
  end.

(** [str.isspace] on one character, the whitespace of [strip()] and
    [split()]: TAB, LF, VT, FF, CR, FS, GS, RS, US, SPACE, NEL, NBSP, and
    the spaces and separators U+1680, U+2000 to U+200A, U+2028, U+2029,
    U+202F, U+205F and U+3000. *)
Definition is_whitespace (c : Z) : bool :=
  ((9 <=? c) && (c <=? 13)) || ((28 <=? c) && (c <=? 32))
  || (c =? 0x85) || (c =? 0xA0) || (c =? 0x1680)
  || ((0x2000 <=? c) && (c <=? 0x200A))
  || (c =? 0x2028) || (c =? 0x2029) || (c =? 0x202F) || (c =? 0x205F)
  || (c =? 0x3000).

Fixpoint text_lstrip (t : text) : text :=
  match t with
  | [] => []
  | c :: t' => if is_whitespace c then text_lstrip t' else t
  end.

(** [t.strip()]. *)
Definition text_strip (t : text) : text :=
  rev (text_lstrip (rev (text_lstrip t))).

(** [t.split()]: the maximal runs of characters that are not whitespace, in
    order.  [cur] is the run being read, in reverse. *)
Fixpoint text_split_aux (cur : text) (t : text) : list text :=
  match t with
  | [] => if nonempty cur then [rev cur] else []
  | c :: t' =>
      if is_whitespace c
      then (if nonempty cur then rev cur :: text_split_aux [] t'
            else text_split_aux [] t')
      else text_split_aux (c :: cur) t'
  end.

Definition text_split (t : text) : list text := text_split_aux [] t.

End Py.

(** ** The standard module [colorsys], as far as the builder calls it *)

Module colorsys.
Import Py.
Local Open Scope float_scope.

Definition ONE_THIRD : float := 1 / 3.
Definition ONE_SIXTH : float := 1 / 6.
Definition TWO_THIRD : float := 2 / 3.

Definition _v (m1 m2 hue : float) : float :=
  let hue := mod1 hue in
  if hue <? ONE_SIXTH then m1 + (m2 - m1) * hue * 6
  else if hue <? 0.5 then m2
  else if hue <? TWO_THIRD then m1 + (m2 - m1) * (TWO_THIRD - hue) * 6
  else m1.

Definition hls_to_rgb (h l s : float) : float * float * float :=
  if s =? 0 then (l, l, l)
  else
    let m2 := if l <=? 0.5 then l * (1 + s) else l + s - (l * s) in
    let m1 := 2 * l - m2 in
    (_v m1 m2 (h + ONE_THIRD), _v m1 m2 h, _v m1 m2 (h - ONE_THIRD)).

End colorsys.

(** ** The standard module [hashlib]: SHA-256 (FIPS 180-4) *)

Module hashlib.

(** A word is an integer in [0, 2^32). *)
Definition mask32 : Z := 0xffffffff.
Definition add32 (x y : Z) : Z := Z.land (x + y) mask32.
Definition not32 (x : Z) : Z := Z.lxor x mask32.
Definition rotr (n x : Z) : Z :=
  Z.lor (Z.shiftr x n) (Z.land (Z.shiftl x (32 - n)) mask32).

Definition Ch (x y z : Z) : Z :=
  Z.lxor (Z.land x y) (Z.land (not32 x) z).
Definition Maj (x y z : Z) : Z :=
  Z.lxor (Z.lxor (Z.land x y) (Z.land x z)) (Z.land y z).
Definition Sigma0 (x : Z) : Z :=
  Z.lxor (Z.lxor (rotr 2 x) (rotr 13 x)) (rotr 22 x).
Definition Sigma1 (x : Z) : Z :=
  Z.lxor (Z.lxor (rotr 6 x) (rotr 11 x)) (rotr 25 x).
Definition sigma0 (x : Z) : Z :=
  Z.lxor (Z.lxor (rotr 7 x) (rotr 18 x)) (Z.shiftr x 3).
Definition sigma1 (x : Z) : Z :=
  Z.lxor (Z.lxor (rotr 17 x) (rotr 19 x)) (Z.shiftr x 10).

(** The primes below 312: the first sixty-four. *)
Definition is_prime (n : Z) : bool :=
  forallb (fun d => negb (n mod d =? 0))
          (map Z.of_nat (seq 2 (Z.to_nat n - 2))).

Definition primes : list Z := filter is_prime (map Z.of_nat (seq 2 310)).

(** The integer cube root of [n], bit by bit from bit [bits - 1] down. *)
Fixpoint cube_root (bits : nat) (n r : Z) : Z :=
  match bits with
  | O => r
  | S b =>
      let c := r + 2 ^ Z.of_nat b in
      cube_root b n (if c * c * c <=? n then c else r)
  end.

(** The first thirty-two bits of the fractional part of the cube root,
    respectively of the square root, of [p]. *)
Definition frac32_cube_root (p : Z) : Z :=
  Z.land (cube_root 40 (p * 2 ^ 96) 0) mask32.
Definition frac32_square_root (p : Z) : Z :=
  Z.land (Z.sqrt (p * 2 ^ 64)) mask32.

(** The round constants and the initial hash value (FIPS 180-4, 4.2.2 and
    5.3.3). *)
Definition K : list Z :=
  Eval vm_compute in map frac32_cube_root (firstn 64 primes).

Definition H0 : list Z :=
  Eval vm_compute in map frac32_square_root (firstn 8 primes).

(** Padding: one bit, zeros up to 56 modulo 64 bytes, the length of the
    message in bits on eight bytes, most significant first. *)
Definition be_bytes (n : nat) (v : Z) : list Z :=
  map (fun i => Z.land (Z.shiftr v (8 * Z.of_nat i)) 0xff) (rev (seq 0 n)).

Definition pad (msg : list Z) : list Z :=
  let len := Z.of_nat (List.length msg) in
  let zeros := Z.to_nat ((55 - len) mod 64) in
  (msg ++ [0x80] ++ repeat 0 zeros ++ be_bytes 8 (8 * len))%list.

(** The big-endian words of a byte sequence, four bytes each. *)
Fixpoint words (bytes : list Z) : list Z :=
  match bytes with
  | b0 :: b1 :: b2 :: b3 :: rest =>
      (Z.shiftl b0 24 + Z.shiftl b1 16 + Z.shiftl b2 8 + b3) :: words rest
  | _ => []
  end.

(** The blocks of sixteen words; [n] bounds their number. *)
Fixpoint blocks (n : nat) (ws : list Z) : list (list Z) :=
  match n, ws with
  | S n', _ :: _ => firstn 16 ws :: blocks n' (skipn 16 ws)
  | _, _ => []
  end.

(** The message schedule, most recent word first: [rev_w] holds
    [W_(t-1), W_(t-2), ...] and [steps] words remain to be added. *)
Fixpoint schedule (steps : nat) (rev_w : list Z) : list Z :=
  match steps with
  | O => rev_w
  | S steps' =>
      let w := add32 (add32 (sigma1 (nth 1 rev_w 0)) (nth 6 rev_w 0))
                     (add32 (sigma0 (nth 14 rev_w 0)) (nth 15 rev_w 0)) in
      schedule steps' (w :: rev_w)
  end.

(** One round on the working variables [a .. h]. *)
Definition round (v : list Z) (kw : Z * Z) : list Z :=
  match v with
  | [a; b; c; d; e; f; g; h] =>
      let t1 := add32 (add32 (add32 h (Sigma1 e)) (Ch e f g))
                      (add32 (fst kw) (snd kw)) in
      let t2 := add32 (Sigma0 a) (Maj a b c) in
      [add32 t1 t2; a; b; c; add32 d t1; e; f; g]
  | _ => v
  end.

Definition compress (h : list Z) (block : list Z) : list Z :=
  let w := rev (schedule 48 (rev block)) in
  let v := fold_left round (combine K w) h in
  map (fun p => add32 (fst p) (snd p)) (combine h v).

Definition sha256_words (data : list byte) : list Z :=
  let bytes := pad (map (fun b => Z.of_N (Byte.to_N b)) data) in
  fold_left compress (blocks (List.length bytes) (words bytes)) H0.

Definition hex_digit (d : Z) : ascii :=
  ascii_of_nat (Z.to_nat (if d <? 10 then 48 + d else 87 + d)).

(** The eight lower-case hexadecimal digits of a word. *)
Definition hex_word (w : Z) : string :=
  string_of_list_ascii
    (map (fun i => hex_digit (Z.land (Z.shiftr w (4 * Z.of_nat i)) 0xf))
         (rev (seq 0 8))).

(** [hashlib.sha256(data).hexdigest()]. *)
Definition sha256_hexdigest (data : list byte) : string :=
  String.concat "" (map hex_word (sha256_words data)).

End hashlib.

(** ** [src/huefy/esc_builder.py]: class [AnsiEscapeCodeBuilder] *)

Module AnsiEscapeCodeBuilder.
Import Py.

(** One entry of [DEFAULT_COLORS]: the inner dictionary with its two keys. *)
Record colors : Type := { fg : string; bg : string }.

(** The class attribute [DEFAULT_COLORS], a dictionary keyed by theme name. *)
Definition DEFAULT_COLORS : list (string * colors) :=
  [ ("dark",  {| fg := "#e0e0e0"; bg := "#1e1e1e" |});
    ("light", {| fg := "#2e2e2e"; bg := "#f0f0f0" |}) ].

(** [d.get(key)] on a dictionary written as an association list. *)
Fixpoint dict_get {V : Type} (d : list (string * V)) (key : string)
  : option V :=
  match d with
  | [] => None
  | (k, v) :: d' => if String.eqb k key then Some v else dict_get d' key
  end.

(** The instance attributes. *)
Record builder : Type := {
  _styles : list string;
  _fg_color : option string;
  _bg_color : option string;
  _theme : string;
  _negative : bool
}.

Definition with_styles (l : list string) (self : builder) : builder :=
  {| _styles := l; _fg_color := _fg_color self; _bg_color := _bg_color self;
     _theme := _theme self; _negative := _negative self |}.

Definition with_fg_color (c : option string) (self : builder) : builder :=
  {| _styles := _styles self; _fg_color := c; _bg_color := _bg_color self;
     _theme := _theme self; _negative := _negative self |}.

Definition with_bg_color (c : option string) (self : builder) : builder :=
  {| _styles := _styles self; _fg_color := _fg_color self; _bg_color := c;
     _theme := _theme self; _negative := _negative self |}.

Definition with_theme (t : string) (self : builder) : builder :=
  {| _styles := _styles self; _fg_color := _fg_color self;
     _bg_color := _bg_color self; _theme := t; _negative := _negative self |}.

Definition with_negative (n : bool) (self : builder) : builder :=
  {| _styles := _styles self; _fg_color := _fg_color self;
     _bg_color := _bg_color self; _theme := _theme self; _negative := n |}.

(** A method mutates the instance and returns or raises: the instance after
    the call is part of the outcome in both cases, since an exception does
    not undo the assignments made before it. *)
Definition method (A : Type) : Type := builder -> result A * builder.

Definition mret {A : Type} (a : A) : method A := fun self => (Return a, self).

Definition mraise {A : Type} (e : exn) : method A :=
  fun self => (Raise e, self).

Definition mbind {A B : Type} (m : method A) (k : A -> method B) : method B :=
  fun self =>
    match m self with
    | (Return a, self') => k a self'
    | (Raise e, self') => (Raise e, self')
    end.

(** A computation that does not touch the instance. *)
Definition lift {A : Type} (r : result A) : method A :=
  fun self => (r, self).

(** An assignment to attributes of [self]. *)
Definition assign (f : builder -> builder) : method unit :=
  fun self => (Return tt, f self).

Notation "x <-- m ;;; k" := (mbind m (fun x => k))
  (at level 61, m at next level, right associativity).
Notation "m ;;; k" := (mbind m (fun _ => k))
  (at level 61, right associativity).

(** The setters return [self]; the returned value is modelled as [tt], the
    instance being the second component of the outcome. *)
Definition set_bold (enabled : bool) : method unit := fun self =>
  if enabled
  then assign (with_styles (_styles self ++ ["1"])%list) self
  else assign (with_styles (_styles self ++ ["22"])%list) self.

Definition set_italic (enabled : bool) : method unit := fun self =>
  if enabled
  then assign (with_styles (_styles self ++ ["3"])%list) self
  else assign (with_styles (_styles self ++ ["23"])%list) self.

Definition set_underline (enabled : bool) : method unit := fun self =>
  if enabled
  then assign (with_styles (_styles self ++ ["4"])%list) self
  else assign (with_styles (_styles self ++ ["24"])%list) self.

(** [_normalize_color]: it does not use [self]. *)
Definition _normalize_color (color : string) : result (Z * Z * Z) :=
  if prefix "#" color then
    let color := lstrip (Ascii.eqb "#") color in
    if (String.length color =? 6)%nat then
      r <- int16 (slice 0 2 color) ;;
      g <- int16 (slice 2 4 color) ;;
      b <- int16 (slice 4 6 color) ;;
      Return (r, g, b)
    else if (String.length color =? 3)%nat then
      match list_ascii_of_string color with
      | [c0; c1; c2] =>
          r <- int16 (String c0 (String c0 EmptyString)) ;;
          g <- int16 (String c1 (String c1 EmptyString)) ;;
          b <- int16 (String c2 (String c2 EmptyString)) ;;
          Return (r, g, b)
      | _ => Raise (ValueError "Invalid HEX color format.")
      end
    else Raise (ValueError "Invalid HEX color format.")
  else if prefix "hsl(" color then
    let hsl := split_on "," (slice_to_last 4 color) in
    h0 <- index hsl 0 ;;
    h <- float_of_string h0 ;;
    s1 <- index hsl 1 ;;
    s <- float_of_string (strip (Ascii.eqb "%") s1) ;;
    let s := (s / 100)%float in
    l2 <- index hsl 2 ;;
    l <- float_of_string (strip (Ascii.eqb "%") l2) ;;
    let l := (l / 100)%float in
    let '(r, g, b) := colorsys.hls_to_rgb (h / 360)%float l s in
    r <- int_of_float (r * 255)%float ;;
    g <- int_of_float (g * 255)%float ;;
    b <- int_of_float (b * 255)%float ;;
    Return (r, g, b)
  else Raise (ValueError "Unsupported color format. Use HEX or HSL.").

(** The text [hsl(H,S%,L%)] with the three fields as written. *)
Definition hsl_string (H S L : string) : string :=
  "hsl(" ++ H ++ "," ++ S ++ "%," ++ L ++ "%)".

(** What the HSL branch computes from the three parsed numbers: hue in
    degrees, saturation and lightness in percent. *)
Definition hsl_to_rgb255 (h s l : float) : result (Z * Z * Z) :=
  let '(r, g, b) :=
    colorsys.hls_to_rgb (h / 360)%float (l / 100)%float (s / 100)%float in
  r <- int_of_float (r * 255)%float ;;
  g <- int_of_float (g * 255)%float ;;
  b <- int_of_float (b * 255)%float ;;
  Return (r, g, b).

(** The [color] and [rgb] keyword arguments: [None] or a value. *)
Definition color_arg : Type := option string.
Definition rgb_arg : Type := option (list Z).

(** The truth value of an optional argument: present and not empty. *)
Definition given_color (color : color_arg) : option string :=
  match color with
  | Some c => if truthy c then Some c else None
  | None => None
  end.

Definition given_rgb (rgb : rgb_arg) : option (list Z) :=
  match rgb with
  | Some (x :: t) => Some (x :: t)
  | _ => None
  end.

(** The first lines of [set_fg_color] and [set_bg_color]. *)
Definition color_of_args (color : color_arg) (rgb : rgb_arg)
  : result (Z * Z * Z) :=
  match given_color color with
  | Some c => _normalize_color c
  | None =>
      match given_rgb rgb with
      | Some t => unpack3 t
      | None =>
          Raise (ValueError
            "Invalid color specification. Provide either a color string or RGB tuple.")
      end
  end.

(** The f-string [f'{p};2;{r};{g};{b}'] with [p] the literal [38] or [48]. *)
Definition sgr_color (p : string) (c : Z * Z * Z) : string :=
  let '(r, g, b) := c in
  p ++ ";2;" ++ str_int r ++ ";" ++ str_int g ++ ";" ++ str_int b.

Definition set_fg_color (color : color_arg) (rgb : rgb_arg) : method unit :=
  c <-- lift (color_of_args color rgb) ;;;
  assign (with_fg_color (Some (sgr_color "38" c))).

Definition set_bg_color (color : color_arg) (rgb : rgb_arg) : method unit :=
  c <-- lift (color_of_args color rgb) ;;;
  assign (with_bg_color (Some (sgr_color "48" c))).

Definition _set_default_colors : method unit := fun self =>
  match dict_get DEFAULT_COLORS (_theme self) with
  | None => mraise (ValueError "Unsupported theme. Use 'dark' or 'light'.") self
  | Some colors =>
      (set_fg_color (Some (fg colors)) None ;;;
       set_bg_color (Some (bg colors)) None) self
  end.

Definition set_theme (theme : string) : method unit :=
  assign (with_theme theme) ;;;
  _set_default_colors.

Definition set_negative (enabled : bool) : method unit :=
  assign (with_negative enabled).

(** [__init__]: the attributes are assigned, then the defaults are set.  An
    exception leaves no instance to the caller. *)
Definition init (theme : string) : result builder :=
  let self := {| _styles := []; _fg_color := None; _bg_color := None;
                 _theme := theme; _negative := false |} in
  match _set_default_colors self with
  | (Return _, self') => Return self'
  | (Raise e, _) => Raise e
  end.

(** The truth value of a stored code: not [None] and not empty. *)
Definition code_given (c : option string) : list string :=
  match c with
  | Some t => if truthy t then [t] else []
  | None => []
  end.

Definition ESC : ascii := "027"%char.

Definition build : method string := fun self =>
  let self :=
    if _negative self
    then {| _styles := _styles self;
            _fg_color := _bg_color self; _bg_color := _fg_color self;
            _theme := _theme self; _negative := _negative self |}
    else self in
  let codes := (code_given (_fg_color self) ++ code_given (_bg_color self)
                ++ _styles self)%list in
  (Return (String ESC "[" ++ join ";" codes ++ "m"), self).

(** The public methods as calls, to speak of every operation at once. *)
Inductive call : Type :=
| SetBold (enabled : bool)
| SetItalic (enabled : bool)
| SetUnderline (enabled : bool)
| SetFgColor (color : color_arg) (rgb : rgb_arg)
| SetBgColor (color : color_arg) (rgb : rgb_arg)
| SetTheme (theme : string)
| SetNegative (enabled : bool)
| Build.

(** The instance after a call, whether the call returned or raised. *)
Definition after (c : call) (self : builder) : builder :=
  match c with
  | SetBold enabled => snd (set_bold enabled self)
  | SetItalic enabled => snd (set_italic enabled self)
  | SetUnderline enabled => snd (set_underline enabled self)
  | SetFgColor color rgb => snd (set_fg_color color rgb self)
  | SetBgColor color rgb => snd (set_bg_color color rgb self)
  | SetTheme theme => snd (set_theme theme self)
  | SetNegative enabled => snd (set_negative enabled self)
  | Build => snd (build self)
  end.

(** The instance after a sequence of calls, in order. *)
Definition after_all (cs : list call) (self : builder) : builder :=
  fold_left (fun s c => after c s) cs self.

(** [AnsiEscapeCodeBuilder(theme).m()]: a method called on a new instance. *)
Definition on_new {A : Type} (theme : string) (m : method A) : result A :=
  match init theme with
  | Return self => fst (m self)
  | Raise e => Raise e
  end.

(** The instances a caller can hold: a new one, then any calls. *)
Inductive reachable : builder -> Prop :=
| reachable_init (theme : string) (self : builder) :
    init theme = Return self -> reachable self
| reachable_call (c : call) (self : builder) :
    reachable self -> reachable (after c self).

(** The calls the specification lists as changing the stored colour codes. *)
Definition is_color_setter_or_theme_switch (c : call) : bool :=
  match c with
  | SetFgColor _ _ | SetBgColor _ _ | SetTheme _ => true
  | _ => false
  end.

(** The two stored codes. *)
Definition codes (self : builder) : option string * option string :=
  (_fg_color self, _bg_color self).

(** A stored code as the setters write it: not empty, five fields. *)
Definition is_code (c : option string) : Prop :=
  exists t, c = Some t /\ t <> "" /\ count_char ";" t = 4%nat.

(** The instance [AnsiEscapeCodeBuilder()] and
    [AnsiEscapeCodeBuilder('light')] construct. *)
Definition dark_builder : builder :=
  {| _styles := []; _fg_color := Some "38;2;224;224;224";
     _bg_color := Some "48;2;30;30;30"; _theme := "dark";
     _negative := false |}.

Definition light_builder : builder :=
  {| _styles := []; _fg_color := Some "38;2;46;46;46";
     _bg_color := Some "48;2;240;240;240"; _theme := "light";
     _negative := false |}.

(** The builder whose two slots hold the same code: a new dark builder,
    [set_negative(True)], [build()], then
    [set_fg_color(rgb=(224, 224, 224))]. *)
Definition same_codes_builder : builder :=
  after_all [SetNegative true; Build; SetFgColor None (Some [224; 224; 224])]
            dark_builder.

End AnsiEscapeCodeBuilder.

(** ** The file system, [os.path] and [open] *)

Module os.
Import Py.

(** What a path names.  A regular file has its bytes and may deny reading. *)
Inductive node : Type :=
| Directory
| File (readable : bool) (content : list byte).

(** The state of the file system: what each path names, if anything. *)
Definition filesystem : Type := string -> option node.

(** What a call observes or does outside the process, in order.  A [Print]
    holds the f-string as written and the value of its one field. *)
Inductive field : Type :=
| Str (s : string)
| Exn (e : exn).

Inductive event : Type :=
| Exists (path : string) (answer : bool)
| Open (path : string) (mode : string)
| ReadLine (path : string) (line : text)
| Read (path : string)
| Print (template : string) (value : field).

(** A computation with effects: its outcome and the events it caused. *)
Definition io (A : Type) : Type := result A * list event.

Definition ret {A : Type} (a : A) : io A := (Return a, []).
Definition throw {A : Type} (e : exn) : io A := (Raise e, []).
Definition emit (ev : event) : io unit := (Return tt, [ev]).

Definition iobind {A B : Type} (m : io A) (k : A -> io B) : io B :=
  match m with
  | (Return a, t) => let '(r, t') := k a in (r, (t ++ t')%list)
  | (Raise e, t) => (Raise e, t)
  end.

Notation "x <== m ;; k" := (iobind m (fun x => k))
  (at level 61, m at next level, right associativity).
Notation "' pat <== m ;; k" :=
  (iobind m (fun x => match x with pat => k end))
  (at level 61, pat pattern, m at next level, right associativity).
Notation "m >> k" := (iobind m (fun _ => k))
  (at level 61, right associativity).

(** [try: body except IOError as e: handler(e)]: only an [IOError] is
    caught, any other exception goes on to the caller. *)
Definition try_except_IOError {A : Type} (body : io A) (handler : exn -> io A)
  : io A :=
  match body with
  | (Raise (IOError n), t) =>
      let '(r, t') := handler (IOError n) in (r, (t ++ t')%list)
  | other => other
  end.

(** [os.path.join(a, b)] (POSIX). *)
Definition path_join (a b : string) : string :=
  if prefix "/" b then b
  else if negb (truthy a) || prefix "/" (rev_string a) then a ++ b
  else a ++ "/" ++ b.

(** [os.path.join(a, b)] on texts of any character. *)
Definition starts_with_sep (t : text) : bool :=
  match t with
  | c :: _ => c =? 47
  | [] => false
  end.

Definition path_join_text (a b : text) : text :=
  if starts_with_sep b then b
  else if negb (nonempty a) || starts_with_sep (rev a) then (a ++ b)%list
  else (a ++ 47 :: b)%list.

(** [os.path.exists(path)]. *)
Definition path_exists (fs : filesystem) (path : string) : io bool :=
  let answer := match fs path with Some _ => true | None => false end in
  emit (Exists path answer) >> ret answer.

(** [open(path, mode)] for reading: the bytes of the file, or an [IOError]
    with its [errno] (ENOENT, EISDIR, EACCES). *)
Definition open (fs : filesystem) (path mode : string) : io (list byte) :=
  emit (Open path mode) >>
  match fs path with
  | None => throw (IOError 2)
  | Some Directory => throw (IOError 21)
  | Some (File false _) => throw (IOError 13)
  | Some (File true content) => ret content
  end.

(** *** A file opened in mode ['r'] and iterated

    [open(path, 'r')] names no encoding, so the bytes are decoded with the
    encoding of the locale, taken here to be UTF-8 (a UTF-8 locale, or the
    interpreter's UTF-8 mode), errors strict, newlines universal.  The
    file object reads the bytes [CHUNK_SIZE] at a time and decodes each
    chunk as it is read, so a byte that does not decode raises
    [UnicodeDecodeError] at the read of its chunk: after the lines that
    ended in the chunks before, and before any line of its own chunk. *)

Definition byte_code (b : byte) : Z := Z.of_N (Byte.to_N b).

Definition is_continuation (b : Z) : bool := (0x80 <=? b) && (b <=? 0xBF).

(** The second byte of a sequence of three or of four, by the first: the
    ranges that leave out the over-long forms, the surrogates and the code
    points above U+10FFFF. *)
Definition second_of_three (b0 b1 : Z) : bool :=
  is_continuation b1
  && (if b0 =? 0xE0 then 0xA0 <=? b1
      else if b0 =? 0xED then b1 <? 0xA0
      else true).

Definition second_of_four (b0 b1 : Z) : bool :=
  is_continuation b1
  && (if b0 =? 0xF0 then 0x90 <=? b1
      else if b0 =? 0xF4 then b1 <? 0x90
      else true).

Definition low_bits (n b : Z) : Z := Z.land b (Z.ones n).

(** The incremental UTF-8 decoder on the bytes it holds: the characters of
    the complete sequences and the bytes of a sequence cut short at the
    end, which wait for the next chunk; on the last call ([final]) a
    sequence cut short is an error, as is at any time a byte that cannot
    start or continue a sequence. *)
Fixpoint utf8_decode (final : bool) (input : list Z)
  : result (text * list Z) :=
  let cut_short : result (text * list Z) :=
    if final then Raise UnicodeDecodeError else Return ([], input) in
  let followed_by (c : Z) (rest : result (text * list Z)) :=
    '(t, held) <- rest ;; Return (c :: t, held) in
  match input with
  | [] => Return ([], [])
  | b0 :: r0 =>
      if b0 <? 0x80 then followed_by b0 (utf8_decode final r0)
      else if (0xC2 <=? b0) && (b0 <=? 0xDF) then
        match r0 with
        | [] => cut_short
        | b1 :: r1 =>
            if is_continuation b1 then
              followed_by (Z.shiftl (low_bits 5 b0) 6 + low_bits 6 b1)
                          (utf8_decode final r1)
            else Raise UnicodeDecodeError
        end
      else if (0xE0 <=? b0) && (b0 <=? 0xEF) then
        match r0 with
        | [] => cut_short
        | b1 :: r1 =>
            if second_of_three b0 b1 then
              match r1 with
              | [] => cut_short
              | b2 :: r2 =>
                  if is_continuation b2 then
                    followed_by (Z.shiftl (low_bits 4 b0) 12
                                 + Z.shiftl (low_bits 6 b1) 6 + low_bits 6 b2)
                                (utf8_decode final r2)
                  else Raise UnicodeDecodeError
              end
            else Raise UnicodeDecodeError
        end
      else if (0xF0 <=? b0) && (b0 <=? 0xF4) then
        match r0 with
        | [] => cut_short
        | b1 :: r1 =>
            if second_of_four b0 b1 then
              match r1 with
              | [] => cut_short
              | b2 :: r2 =>
                  if is_continuation b2 then
                    match r2 with
                    | [] => cut_short
                    | b3 :: r3 =>
                        if is_continuation b3 then
                          followed_by (Z.shiftl (low_bits 3 b0) 18
                                       + Z.shiftl (low_bits 6 b1) 12
                                       + Z.shiftl (low_bits 6 b2) 6
                                       + low_bits 6 b3)
                                      (utf8_decode final r3)
                        else Raise UnicodeDecodeError
                    end
                  else Raise UnicodeDecodeError
              end
            else Raise UnicodeDecodeError
        end
      else Raise UnicodeDecodeError
  end.

(** Universal newlines: CR LF and CR are read as LF. *)
Fixpoint translate_newlines (t : text) : text :=
  match t with
  | [] => []
  | c :: t' =>
      if c =? 13 then
        match t' with
        | d :: t'' =>
            if d =? 10 then 10 :: translate_newlines t''
            else 10 :: translate_newlines t'
        | [] => [10]
        end
      else c :: translate_newlines t'
  end.

(** The state of the decoder between two chunks: the bytes of a sequence
    cut short, and whether a CR that ended the last chunk is held back
    until it is known whether an LF follows. *)
Record decoder : Type := {
  held_bytes : list Z;
  pendingcr : bool
}.

Definition ends_with_cr (t : text) : bool :=
  match rev t with
  | c :: _ => c =? 13
  | [] => false
  end.

(** [decoder.decode(chunk, final)]. *)
Definition decode (d : decoder) (chunk : list Z) (final : bool)
  : result (text * decoder) :=
  '(output, held) <- utf8_decode final (held_bytes d ++ chunk)%list ;;
  let prefixed := pendingcr d && (final || nonempty output) in
  let output := if prefixed then 13 :: output else output in
  let retained := negb final && ends_with_cr output in
  let output := if retained then removelast output else output in
  Return (translate_newlines output,
          {| held_bytes := held;
             pendingcr := (pendingcr d && negb prefixed) || retained |}).

(** The bytes a file object reads at a time. *)
Definition CHUNK_SIZE : nat := Z.to_nat 8192.

(** The successive chunks of a regular file: [size] bytes each, the last
    one shorter.  [room] counts the bytes the chunk being filled still
    takes, [cur] holds it in reverse. *)
Fixpoint chunks (size room : nat) (cur input : list Z) : list (list Z) :=
  match input with
  | [] =>
      match cur with
      | [] => []
      | _ :: _ => [rev cur]
      end
  | b :: input' =>
      match room with
      | S (S r) => chunks size (S r) (b :: cur) input'
      | _ => rev (b :: cur) :: chunks size size [] input'
      end
  end.

(** The lines that end in a text, each with its LF, and what follows the
    last of them.  [cur] is the line being read, in reverse. *)
Fixpoint split_lines (cur : text) (t : text) : list text * text :=
  match t with
  | [] => ([], rev cur)
  | c :: t' =>
      if c =? 10 then
        let '(lines, last) := split_lines [] t' in
        (rev (c :: cur) :: lines, last)
      else split_lines (c :: cur) t'
  end.

(** What iterating over the file yields from the chunks not yet read:
    lines, then the end of the file ([None]) or the error of the decoder.
    [partial] is the text read after the last LF.  A chunk is read when the
    text at hand holds no further line, so the lines that end in a chunk
    are all yielded before the next chunk is decoded; at the end of the
    file the decoder is flushed, and a last line need not end in LF. *)
Fixpoint read_lines (d : decoder) (partial : text) (input : list (list Z))
  : list text * option exn :=
  match input with
  | [] =>
      match decode d [] true with
      | Raise e => ([], Some e)
      | Return (output, _) =>
          let '(lines, last) := split_lines [] (partial ++ output)%list in
          ((lines ++ if nonempty last then [last] else [])%list, None)
      end
  | chunk :: input' =>
      match decode d chunk false with
      | Raise e => ([], Some e)
      | Return (output, d') =>
          let '(lines, last) := split_lines [] (partial ++ output)%list in
          let '(more, failure) := read_lines d' last input' in
          ((lines ++ more)%list, failure)
      end
  end.

(** [for line in file] on a file opened in mode ['r'] that holds
    [content]: the lines in order, and how the iteration ends. *)
Definition text_lines (content : list byte) : list text * option exn :=
  read_lines {| held_bytes := []; pendingcr := false |} []
             (chunks CHUNK_SIZE CHUNK_SIZE [] (map byte_code content)).

End os.

(** ** [hue.py]: class [ThemeManager] *)

Module ThemeManager.
Import Py os.

(** The attributes [__init__] reads from the configuration. *)
Record ThemeManager : Type := {
  default_theme : string;
  themes_dir : string;
  manifest_file : string;
  log_file : string
}.

Section validate_theme.

Variable self : ThemeManager.
Variable fs : filesystem.

(** The body of [for line in manifest], on the lines not yet read;
    [failure] is how the iteration ends after them: the end of the file, or
    the error of the decoder, raised where the next line would be read. *)
Fixpoint scan_manifest (manifest_path theme_file : string)
    (failure : option exn) (lines : list text) : io bool :=
  match lines with
  | [] =>
      match failure with
      | Some e => throw e
      | None =>
          emit (Print "Theme file {theme_file} not found in MANIFEST."
                      (Str theme_file)) >>
          ret false
      end
  | line :: rest =>
      emit (ReadLine manifest_path line) >>
      if nonempty (text_strip line) then
        '(manifest_theme_file, expected_hash) <==
           match text_split line with
           | [a; b] => ret (a, b)
           | _ :: _ :: _ :: _ =>
               throw (ValueError "too many values to unpack (expected 2)")
           | [_] =>
               throw (ValueError
                        "not enough values to unpack (expected 2, got 1)")
           | [] =>
               throw (ValueError
                        "not enough values to unpack (expected 2, got 0)")
           end ;;
        let manifest_theme_file :=
          path_join_text (text_of_string (themes_dir self))
                         manifest_theme_file in
        if text_eqb (text_of_string theme_file) manifest_theme_file then
          theme <== open fs theme_file "rb" ;;
          emit (Read theme_file) >>
          let actual_hash := hashlib.sha256_hexdigest theme in
          if negb (text_eqb (text_of_string actual_hash) expected_hash) then
            emit (Print "Theme {theme_file} does not match expected hash."
                        (Str theme_file)) >>
            ret false
          else ret true
        else scan_manifest manifest_path theme_file failure rest
      else scan_manifest manifest_path theme_file failure rest
  end.

(** [validate_theme(self, theme_file=None)]. *)
Definition validate_theme (theme_file : option string) : io bool :=
  let theme_file :=
    match theme_file with
    | Some t =>
        if truthy t then t
        else path_join (themes_dir self) (default_theme self)
    | None => path_join (themes_dir self) (default_theme self)
    end in
  let manifest_path := path_join (themes_dir self) (manifest_file self) in
  found <== path_exists fs theme_file ;;
  if negb found then
    emit (Print "Theme file {theme_file} does not exist." (Str theme_file)) >>
    ret false
  else
    try_except_IOError
      (manifest <== open fs manifest_path "r" ;;
       let '(lines, failure) := text_lines manifest in
       scan_manifest manifest_path theme_file failure lines)
      (fun e =>
         emit (Print "Error reading MANIFEST file: {e}" (Exn e)) >>
         ret false).

(** The path [validate_theme] checks: its argument, or the default theme
    in the themes directory when the argument is [None] or empty. *)
Definition target_path (theme_file : option string) : string :=
  match theme_file with
  | Some t =>
      if truthy t then t
      else path_join (themes_dir self) (default_theme self)
  | None => path_join (themes_dir self) (default_theme self)
  end.

Definition manifest_path : string :=
  path_join (themes_dir self) (manifest_file self).

(** A line of the manifest is blank, or holds an entry when it splits into
    exactly two tokens, or is malformed. *)
Definition is_blank (line : text) : bool :=
  negb (nonempty (text_strip line)).

Definition entry (line : text) : option (text * text) :=
  match text_split line with
  | [name; digest] => Some (name, digest)
  | _ => None
  end.

Definition malformed (line : text) : bool :=
  negb (is_blank line)
  && match entry line with Some _ => false | None => true end.

(** The digest a line records for [target]: the line is an entry whose
    file name, joined with the themes directory, is [target]. *)
Definition recorded (target : string) (line : text) : option text :=
  if is_blank line then None
  else match entry line with
       | Some (name, digest) =>
           if text_eqb (text_of_string target)
                       (path_join_text (text_of_string (themes_dir self))
                                       name)
           then Some digest else None
       | None => None
       end.

(** A line the scan passes over: blank, or an entry for another file. *)
Definition passed_over (target : string) (line : text) : bool :=
  negb (malformed line)
  && match recorded target line with Some _ => false | None => true end.

(** The lines the iteration over a manifest yields, and the error that
    ends it, if one does. *)
Definition manifest_lines (manifest : list byte) : list text :=
  fst (text_lines manifest).

Definition decoding_failure (manifest : list byte) : option exn :=
  snd (text_lines manifest).

(** The path cannot be opened for reading. *)
Definition cannot_open (path : string) : bool :=
  match fs path with
  | Some (File true _) => false
  | _ => true
  end.

End validate_theme.

(** A manager with the default configuration, and a themes directory
    holding at most the theme [a.theme] and the manifest, each given by its
    text when present. *)
Definition example_manager : ThemeManager :=
  {| default_theme := "monokai"; themes_dir := "themes.d";
     manifest_file := "MANIFEST"; log_file := "theme.log" |}.

Definition example_fs (theme manifest : option string) : filesystem :=
  fun path =>
    if String.eqb path "themes.d/a.theme"
    then option_map (fun t => File true (list_byte_of_string t)) theme
    else if String.eqb path "themes.d/MANIFEST"
    then option_map (fun t => File true (list_byte_of_string t)) manifest
    else if String.eqb path "themes.d" then Some Directory
    else None.

(** The manifest line recording the digest of [abc] under a file name. *)
Definition example_entry (name : string) : string :=
  name ++ " ba7816bf8f01cfea414140de5dae2223b00361a396177a9cb410ff61f20015ad"
       ++ String "010" "".

(** [n] blank lines, of a space and LF each. *)
Definition blank_lines (n : nat) : string :=
  String.concat "" (repeat (" " ++ String "010" "") n).

(** The same file system with [node] at [path]. *)
Definition with_node (path : string) (n : node) (fs : filesystem)
  : filesystem :=
  fun p => if String.eqb p path then Some n else fs p.

End ThemeManager.

(** ** [hue.py]: the rest of [ThemeManager] and the module body *)

Module hue.
Import Py os ThemeManager.

(** What the program does, in order: an event of the file-system calls
    modelled above, the configuration of logging, a record logged with
    [logging.info], a line printed by the module body, a call of
    [Theme.from_file], a call of [list_theme_attributes].  A logged or
    printed line is the f-string as written and the value of its field,
    if it has one. *)
Inductive action : Type :=
| Io (ev : event)
| BasicConfig (filename : string)
| Info (template : string) (value : option string)
| Say (template : string) (value : option string)
| FromFile (path : string)
| ListAttributes.

Definition run (A : Type) : Type := result A * list action.

Definition done {A : Type} (a : A) : run A := (Return a, []).
Definition fail {A : Type} (e : exn) : run A := (Raise e, []).
Definition act (a : action) : run unit := (Return tt, [a]).

Definition then_ {A B : Type} (m : run A) (k : A -> run B) : run B :=
  match m with
  | (Return a, t) => let '(r, t') := k a in (r, (t ++ t')%list)
  | (Raise e, t) => (Raise e, t)
  end.

Notation "x <~ m ;; k" := (then_ m (fun x => k))
  (at level 61, m at next level, right associativity).
Notation "m ;;> k" := (then_ m (fun _ => k))
  (at level 61, right associativity).

(** A file-system computation inside the program. *)
Definition of_io {A : Type} (m : io A) : run A := (fst m, map Io (snd m)).

(** A call that returns or raises and leaves no event of its own. *)
Definition of_result {A : Type} (r : result A) : run A := (r, []).

(** The parsed command line: [args.load], [args.validate], [args.theme]. *)
Record arguments : Type := {
  load : bool;
  validate : bool;
  theme : option string
}.

(** The truth value of [args.theme]: a non-empty string. *)
Definition given (t : option string) : option string :=
  match t with
  | Some u => if truthy u then Some u else None
  | None => None
  end.

(** A bound method, as [theme_manager.validate_theme] in a condition, is
    true. *)
Definition bound_method_is_true : bool := true.

Section Program.

(** The file system; [json.load] on the bytes of the configuration file,
    for configurations that are objects with string values; the external
    [Theme]: its [from_file], whose result counts through its truth value
    ([None] for a false one), and [list_theme_attributes] as printed. *)
Variable fs : filesystem.
Variable json_load : list byte -> result (list (string * string)).
Variable Theme : Type.
Variable from_file : string -> result (option Theme).
Variable list_theme_attributes : Theme -> result string.

(** [load_config]. *)
Definition load_config : io (list (string * string)) :=
  try_except_IOError
    (config_file <== open fs "hue.config" "r" ;;
     match json_load config_file with
     | Return config => ret config
     | Raise e => throw e
     end)
    (fun e =>
       emit (Print "Error reading config file: {e}" (Exn e)) >> ret []).

(** [config.get(key, default)]. *)
Definition config_get (config : list (string * string))
    (key default : string) : string :=
  match AnsiEscapeCodeBuilder.dict_get config key with
  | Some v => v
  | None => default
  end.

(** [ThemeManager()]: [__init__]. *)
Definition new_ThemeManager : io ThemeManager :=
  config <== load_config ;;
  ret {| default_theme := config_get config "default_theme" "monokai";
         themes_dir := config_get config "themes_dir" "themes.d";
         manifest_file := config_get config "manifest_file" "MANIFEST";
         log_file := config_get config "log_file" "theme.log" |}.

(** [setup_logging]; the log file is taken to open. *)
Definition setup_logging (self : ThemeManager) : run unit :=
  act (BasicConfig (log_file self)).

(** [log_message]. *)
Definition log_message (template : string) (value : option string)
  : run unit :=
  act (Info template value).

(** [get_theme_instance(self, theme_file=None)]. *)
Definition get_theme_instance (self : ThemeManager)
    (theme_file : option string) : run (option Theme) :=
  let theme_file :=
    match theme_file with
    | Some t =>
        if truthy t then t
        else path_join (themes_dir self) (default_theme self)
    | None => path_join (themes_dir self) (default_theme self)
    end in
  act (FromFile theme_file) ;;>
  theme <~ of_result (from_file theme_file) ;;
  match theme with
  | Some _ =>
      log_message "Loaded theme from file: {theme_file}" (Some theme_file)
  | None => done tt
  end ;;>
  done theme.

(** [print(f"...{theme.list_theme_attributes()}")]. *)
Definition say_attributes (template : string) (t : Theme) : run unit :=
  act ListAttributes ;;>
  attributes <~ of_result (list_theme_attributes t) ;;
  act (Say template (Some attributes)).

(** The body of [if __name__ == "__main__":], for parsed arguments. *)
Definition main (args : arguments) : run unit :=
  theme_manager <~ of_io new_ThemeManager ;;
  setup_logging theme_manager ;;>
  match given (theme args) with
  | Some args_theme =>
      if validate args then
        valid <~ of_io (validate_theme theme_manager fs (Some args_theme)) ;;
        if negb valid then
          log_message "Failed to validate theme: {args.theme}"
                      (Some args_theme) ;;>
          fail (ValueError ("Failed to validate theme: " ++ args_theme))
        else
          log_message "Theme validated: {args.theme}" (Some args_theme) ;;>
          act (Say "Theme validated: {args.theme}" (Some args_theme))
      else if load args then
        loaded <~ get_theme_instance theme_manager (Some args_theme) ;;
        match loaded with
        | Some t =>
            say_attributes "Loaded theme: {theme.list_theme_attributes()}" t
            ;;> log_message "Loaded theme: {args.theme}" (Some args_theme)
        | None => done tt
        end
      else
        act (Say
          "No action specified. Use -l/--load or -v/--validate with -t/--theme."
          None)
  | None =>
      loaded <~ get_theme_instance theme_manager None ;;
      (if validate args || bound_method_is_true then
         valid <~ of_io (validate_theme theme_manager fs None) ;;
         if negb valid then
           log_message "Failed to validate theme." None ;;>
           fail (ValueError "Failed to validate theme.")
         else done tt
       else
         log_message "Skipping theme validation as per configuration." None)
      ;;>
      match loaded with
      | Some t =>
          say_attributes "Theme loaded: {theme.list_theme_attributes()}" t
      | None => done tt
      end
  end.

(** The module body when [hue] is imported: the [else] branch.  It
    returns the value bound to [THEME]. *)
Definition on_import : run Theme :=
  theme_manager <~ of_io new_ThemeManager ;;
  setup_logging theme_manager ;;>
  loaded <~ get_theme_instance theme_manager None ;;
  match loaded with
  | None =>
      log_message "Failed to load default theme." None ;;>
      fail (ValueError "Failed to load default theme.")
  | Some t =>
      log_message "Loaded default theme." None ;;>
      done t
  end.

End Program.

(** The actions that test or read the file system for a verification, and
    the calls of [Theme.from_file]. *)
Definition is_verification (a : action) : bool :=
  match a with
  | Io (Exists _ _) | Io (ReadLine _ _) | Io (Read _) => true
  | _ => false
  end.

Definition is_from_file (a : action) : bool :=
  match a with
  | FromFile _ => true
  | _ => false
  end.

Definition is_skip_notice (a : action) : bool :=
  match a with
  | Info template _ =>
      String.eqb template "Skipping theme validation as per configuration."
  | _ => false
  end.

(** A [json.load] for the examples: every configuration file is the empty
    object; and a [Theme] that is its path, loaded from every path. *)
Definition empty_object (_ : list byte) : result (list (string * string)) :=
  Return [].

Definition path_theme (path : string) : result (option string) :=
  Return (Some path).

Definition path_attributes (t : string) : result string := Return t.

(** A [json.load] that rejects every file. *)
Definition no_json (_ : list byte) : result (list (string * string)) :=
  Raise (ValueError "Expecting value").

(** The example themes directory, with [a.theme] holding [abc] and listed
    in the manifest, and a configuration file with the given text. *)
Definition configured_fs (config : string) : filesystem :=
  fun path =>
    if String.eqb path "hue.config"
    then Some (File true (list_byte_of_string config))
    else example_fs (Some "abc") (Some (example_entry "a.theme")) path.

End hue.

(** ** Vocabulary for the properties of the builder *)

Module BuilderCalls.
Import Py AnsiEscapeCodeBuilder.

(** The code a style setter appends; [None] for the other calls. *)
Definition style_token (c : call) : option string :=
  match c with
  | SetBold enabled => Some (if enabled then "1" else "22")
  | SetItalic enabled => Some (if enabled then "3" else "23")
  | SetUnderline enabled => Some (if enabled then "4" else "24")
  | _ => None
  end.

(** The six codes the style setters know. *)
Definition is_style_code (t : string) : bool :=
  existsb (String.eqb t) ["1"; "22"; "3"; "23"; "4"; "24"].

(** The text [build()] returns for two colour codes and the styles. *)
Definition rendered (first second : string) (styles : list string) : string :=
  String ESC "[" ++ join ";" (first :: second :: styles) ++ "m".

End BuilderCalls.

(** ** Vocabulary for the properties of colour strings *)

Module ColorTexts.
Import Py AnsiEscapeCodeBuilder.

(** [n] times the character [#]. *)
Fixpoint hashes (n : nat) : string :=
  match n with
  | O => EmptyString
  | S n' => String "#" (hashes n')
  end.

(** The text [hsl(] followed by [body] and one last character. *)
Definition hsl_text (body : string) (last : ascii) : string :=
  "hsl(" ++ body ++ String last "".

(** A gray: the three channels equal to [int(x)]. *)
Definition gray (x : float) : result (Z * Z * Z) :=
  v <- int_of_float x ;; Return (v, v, v).

End ColorTexts.

(** ** Vocabulary for the properties of the verifier *)

Module VerifierTraces.
Import Py os ThemeManager.

(** The events a verification of [target] against the manifest at [mp] may
    cause: the existence test of the target, the manifest opened for
    reading as text and its lines read, the target opened for reading as
    bytes and read, and prints. *)
Definition allowed (target mp : string) (ev : event) : bool :=
  match ev with
  | Exists path _ => String.eqb path target
  | Open path mode =>
      (String.eqb path mp && String.eqb mode "r")
      || (String.eqb path target && String.eqb mode "rb")
  | ReadLine path _ => String.eqb path mp
  | Read path => String.eqb path target
  | Print _ _ => true
  end.

(** The events that read the whole of a file. *)
Definition is_read (ev : event) : bool :=
  match ev with
  | Read _ => true
  | _ => false
  end.

(** The message of the [ValueError] that unpacking the tokens of a
    malformed line raises. *)
Definition unpack_error (line : text) : string :=
  match text_split line with
  | _ :: _ :: _ :: _ => "too many values to unpack (expected 2)"
  | [] => "not enough values to unpack (expected 2, got 0)"
  | _ => "not enough values to unpack (expected 2, got 1)"
  end.


(** The same file system with a directory added at [path]. *)
Definition with_directory (path : string) (fs : filesystem) : filesystem :=
  fun p => if String.eqb p path then Some Directory else fs p.


End VerifierTraces.

(** * Properties *)

(** ** Strings *)

Module StringFacts.
Import Py.

Section Append.

Variables s t : string.

Lemma length_app :
  String.length (s ++ t) = (String.length s + String.length t)%nat.
Proof. induction s as [ | c u IH]; cbn; [ | rewrite IH]; reflexivity. Qed.

Lemma app_empty_r : s ++ "" = s.
Proof. induction s as [ | c u IH]; cbn; [ | rewrite IH]; reflexivity. Qed.

Lemma substring_app_left : substring 0 (String.length s) (s ++ t) = s.
Proof. induction s as [ | c u IH]; cbn; [ | rewrite IH]; now destruct t. Qed.

End Append.

Lemma app_assoc (s t u : string) : (s ++ t) ++ u = s ++ t ++ u.
Proof. induction s as [ | c v IH]; cbn; [ | rewrite IH]; reflexivity. Qed.

Lemma rev_string_app (s t : string) :
  rev_string (s ++ t) = rev_string t ++ rev_string s.
Proof.
  induction s as [ | c u IH]; cbn.
  - now rewrite app_empty_r.
  - now rewrite IH, app_assoc.
Qed.

Lemma rev_string_involutive (s : string) : rev_string (rev_string s) = s.
Proof.
  induction s as [ | c u IH]; cbn; [reflexivity | ].
  now rewrite rev_string_app, IH.
Qed.

Section Contains.

Variable c : ascii.

Lemma contains_cons (a : ascii) (s : string) :
  contains c (String a s) = Ascii.eqb c a || contains c s.
Proof. reflexivity. Qed.

Lemma contains_app (s t : string) :
  contains c (s ++ t) = contains c s || contains c t.
Proof.
  induction s as [ | a u IH]; [reflexivity | ].
  cbn [append]. rewrite !contains_cons, IH. apply orb_assoc.
Qed.

Lemma contains_rev (s : string) : contains c (rev_string s) = contains c s.
Proof.
  induction s as [ | a u IH]; [reflexivity | ].
  cbn [rev_string]. rewrite contains_app, IH, !contains_cons.
  cbn [contains list_ascii_of_string existsb].
  rewrite orb_false_r. apply orb_comm.
Qed.

(** Stripping [c] from a string that does not hold it changes nothing. *)
Lemma lstrip_absent (s : string) :
  contains c s = false -> lstrip (Ascii.eqb c) s = s.
Proof.
  destruct s as [ | a u]; [reflexivity | ].
  rewrite contains_cons. intros H. apply orb_false_elim in H as [H _].
  cbn [lstrip]. now rewrite H.
Qed.

(** [(s + c).strip(c)] gives [s] back when [s] does not hold [c]. *)
Lemma strip_trailing (s : string) :
  contains c s = false ->
  strip (Ascii.eqb c) (s ++ String c "") = s.
Proof.
  intros H. unfold strip, rstrip.
  assert (L : lstrip (Ascii.eqb c) (s ++ String c "")
              = match s with "" => "" | _ => s ++ String c "" end).
  { destruct s as [ | a u].
    - cbn. now rewrite Ascii.eqb_refl.
    - rewrite contains_cons in H. apply orb_false_elim in H as [H _].
      cbn [append lstrip]. now rewrite H. }
  rewrite L. destruct s as [ | a u]; [reflexivity | ].
  rewrite rev_string_app. cbn [rev_string append lstrip].
  rewrite Ascii.eqb_refl.
  change (rev_string u ++ String a "") with (rev_string (String a u)).
  rewrite lstrip_absent by now rewrite contains_rev.
  apply rev_string_involutive.
Qed.

(** [split] on a separator the first field does not hold. *)
Lemma split_on_absent (s : string) :
  contains c s = false -> split_on c s = [s].
Proof.
  induction s as [ | a u IH]; [reflexivity | ].
  rewrite contains_cons. intros H. apply orb_false_elim in H as [Ha Hu].
  cbn [split_on]. rewrite Ascii.eqb_sym, Ha, (IH Hu). reflexivity.
Qed.

Lemma split_on_first (s t : string) :
  contains c s = false ->
  split_on c (s ++ String c t) = s :: split_on c t.
Proof.
  induction s as [ | a u IH]; intros H.
  - cbn [append split_on]. now rewrite Ascii.eqb_refl.
  - rewrite contains_cons in H. apply orb_false_elim in H as [Ha Hu].
    cbn [append split_on]. rewrite Ascii.eqb_sym, Ha, (IH Hu). reflexivity.
Qed.

End Contains.

End StringFacts.

(** ** The escape-code builder *)

Module BuilderProperties.
Import Py AnsiEscapeCodeBuilder StringFacts.

Lemma init_dark : init "dark" = Return dark_builder.
Proof. vm_compute. reflexivity. Qed.

Lemma init_light : init "light" = Return light_builder.
Proof. vm_compute. reflexivity. Qed.

Lemma dict_get_unknown (theme : string) :
  theme <> "dark" -> theme <> "light" ->
  dict_get DEFAULT_COLORS theme = None.
Proof.
  intros Hd Hl. unfold DEFAULT_COLORS. cbn [dict_get].
  rewrite (proj2 (String.eqb_neq "dark" theme)) by congruence.
  rewrite (proj2 (String.eqb_neq "light" theme)) by congruence.
  reflexivity.
Qed.

Lemma dict_get_known (theme : string) (c : colors) :
  dict_get DEFAULT_COLORS theme = Some c ->
  theme = "dark" \/ theme = "light".
Proof.
  unfold DEFAULT_COLORS. cbn [dict_get].
  destruct (String.eqb_spec "dark" theme) as [E | _]; [now left | ].
  destruct (String.eqb_spec "light" theme) as [E | _]; [now right | ].
  discriminate.
Qed.

(** [setTheme("dark")] then [build()] on a new instance, as the
    specification gives it. *)
Example set_theme_dark_build :
  on_new "dark" (set_theme "dark" ;;; build)
  = Return (String ESC "[38;2;224;224;224;48;2;30;30;30m").
Proof. vm_compute. reflexivity. Qed.

(** C2, as stated, fails: a new builder holds the background default of its
    theme, so [build()] after [set_fg_color(rgb=(1,2,3))] alone does not
    return the string with the foreground code only. *)
Lemma fg_only_build_is_not_fg_code_alone :
  on_new "dark" (set_fg_color None (Some [1; 2; 3]) ;;; build)
  <> Return (String ESC "[38;2;1;2;3m").
Proof. vm_compute. discriminate. Qed.

(** C2, amended: on a new builder on which only
    [set_fg_color(rgb=(1,2,3))] was called, [build()] returns the foreground
    code [38;2;1;2;3] followed by the default background code of the theme:
    [ESC[38;2;1;2;3;48;2;30;30;30m] for the dark theme (the default) and
    [ESC[38;2;1;2;3;48;2;240;240;240m] for the light one. *)
Theorem fg_only_build_keeps_default_bg :
  on_new "dark" (set_fg_color None (Some [1; 2; 3]) ;;; build)
  = Return (String ESC "[38;2;1;2;3;48;2;30;30;30m")
  /\ on_new "light" (set_fg_color None (Some [1; 2; 3]) ;;; build)
     = Return (String ESC "[38;2;1;2;3;48;2;240;240;240m").
Proof. split; vm_compute; reflexivity. Qed.

(** *** The stored codes across calls *)

Lemma perform_set_theme_unknown (self : builder) (theme : string) :
  theme <> "dark" -> theme <> "light" ->
  set_theme theme self
  = (Raise (ValueError "Unsupported theme. Use 'dark' or 'light'."),
     with_theme theme self).
Proof.
  intros Hd Hl.
  unfold set_theme, mbind, assign, _set_default_colors, mraise.
  cbn [_theme with_theme].
  now rewrite (dict_get_unknown theme Hd Hl).
Qed.

(** C10: [set_theme] with a name that is neither ['dark'] nor ['light']
    raises the unsupported-theme [ValueError] after it has overwritten the
    theme attribute: the instance then holds the invalid name, and its two
    colour codes are the ones it held before the call. *)
Theorem set_theme_unknown_is_not_atomic (self : builder) (theme : string) :
  theme <> "dark" -> theme <> "light" ->
  fst (set_theme theme self)
  = Raise (ValueError "Unsupported theme. Use 'dark' or 'light'.")
  /\ _theme (after (SetTheme theme) self) = theme
  /\ codes (after (SetTheme theme) self) = codes self
  /\ _styles (after (SetTheme theme) self) = _styles self
  /\ _negative (after (SetTheme theme) self) = _negative self.
Proof.
  intros Hd Hl. unfold after.
  rewrite (perform_set_theme_unknown self theme Hd Hl).
  repeat split.
Qed.

Lemma set_theme_unknown_is_not_atomic_witness :
  fst (set_theme "solarized" dark_builder)
  = Raise (ValueError "Unsupported theme. Use 'dark' or 'light'.")
  /\ _theme (after (SetTheme "solarized") dark_builder) = "solarized"
  /\ codes (after (SetTheme "solarized") dark_builder) = codes dark_builder
  /\ _styles (after (SetTheme "solarized") dark_builder)
     = _styles dark_builder
  /\ _negative (after (SetTheme "solarized") dark_builder)
     = _negative dark_builder.
Proof.
  apply (set_theme_unknown_is_not_atomic dark_builder "solarized");
    discriminate.
Defined.

(** C3, as stated, fails: [build()] is neither a colour setter nor a theme
    switch, and on a builder whose negative flag is set it changes both
    stored codes. *)
Lemma build_changes_codes_when_negative :
  is_color_setter_or_theme_switch Build = false
  /\ reachable (after (SetNegative true) dark_builder)
  /\ codes (after Build (after (SetNegative true) dark_builder))
     <> codes (after (SetNegative true) dark_builder).
Proof.
  split; [reflexivity | split].
  - apply reachable_call. apply (reachable_init "dark"). exact init_dark.
  - vm_compute. discriminate.
Qed.

(** C3, amended: a new builder holds the default codes of its theme, and a
    call changes the stored codes only if it is a colour setter, a theme
    switch, or [build()] with the negative flag set, which exchanges the
    two; the style setters, [set_negative] and [build()] with the negative
    flag clear leave both codes as they are. *)
Theorem codes_change_only_by_setters_theme_or_negative_build
    (self : builder) (c : call) :
  (codes dark_builder = (Some "38;2;224;224;224", Some "48;2;30;30;30")
   /\ codes light_builder = (Some "38;2;46;46;46", Some "48;2;240;240;240")
   /\ forall theme new, init theme = Return new ->
        (theme = "dark" /\ new = dark_builder)
        \/ (theme = "light" /\ new = light_builder))
  /\ match c with
     | SetFgColor _ _ | SetBgColor _ _ | SetTheme _ => True
     | Build =>
         if _negative self
         then codes (after c self) = (_bg_color self, _fg_color self)
         else codes (after c self) = codes self
     | SetBold _ | SetItalic _ | SetUnderline _ | SetNegative _ =>
         codes (after c self) = codes self
     end.
Proof.
  split.
  - split; [reflexivity | split; [reflexivity | ]].
    intros theme new Hnew.
    destruct (dict_get DEFAULT_COLORS theme) as [cs | ] eqn:Hget.
    + destruct (dict_get_known theme cs Hget) as [-> | ->].
      * left. rewrite init_dark in Hnew. now inversion Hnew.
      * right. rewrite init_light in Hnew. now inversion Hnew.
    + unfold init, _set_default_colors in Hnew. cbn [_theme] in Hnew.
      rewrite Hget in Hnew. discriminate.
  - destruct c as [e | e | e | ? ? | ? ? | ? | e | ]; try exact I;
      try (destruct e; reflexivity).
    unfold after, build, codes. destruct (_negative self); reflexivity.
Qed.

(** *** Two builds in negative mode *)

(** [build()] in negative mode: what one call returns and leaves. *)
Lemma build_negative (self : builder) (f b : string) :
  _fg_color self = Some f -> _bg_color self = Some b ->
  f <> "" -> b <> "" -> _negative self = true ->
  build self
  = (Return (String ESC "[" ++ join ";" (b :: f :: _styles self) ++ "m"),
     with_bg_color (Some f) (with_fg_color (Some b) self)).
Proof.
  intros Hf Hb Hfne Hbne Hneg.
  unfold build, with_bg_color, with_fg_color. rewrite Hneg.
  cbn [_fg_color _bg_color _styles _theme _negative]. rewrite Hf, Hb.
  destruct f as [ | cf f]; [congruence | ].
  destruct b as [ | cb b]; [congruence | ].
  reflexivity.
Qed.

(** C4, as stated, fails: a caller can hold a builder with both codes
    stored and the negative flag set on which two successive [build()]
    calls return the same string. *)
Lemma negative_build_twice_same_output :
  reachable same_codes_builder
  /\ _fg_color same_codes_builder = Some "38;2;224;224;224"
  /\ _bg_color same_codes_builder = Some "38;2;224;224;224"
  /\ _negative same_codes_builder = true
  /\ fst (build (snd (build same_codes_builder)))
     = fst (build same_codes_builder).
Proof.
  split.
  - unfold same_codes_builder, after_all. cbn [fold_left].
    do 3 apply reachable_call. apply (reachable_init "dark"), init_dark.
  - vm_compute. repeat split.
Qed.

(** The setters write codes of five fields. *)
Lemma count_char_app (c : ascii) (s t : string) :
  count_char c (s ++ t) = (count_char c s + count_char c t)%nat.
Proof.
  induction s as [ | a u IH]; cbn [append count_char]; [reflexivity | ].
  rewrite IH. lia.
Qed.

Lemma str_int_no_semicolon (n : Z) : count_char ";" (str_int n) = 0%nat.
Proof.
  assert (U : forall u, count_char ";" (NilEmpty.string_of_uint u) = 0%nat)
    by (induction u; cbn; assumption || reflexivity).
  assert (V : forall u, count_char ";" (NilZero.string_of_uint u) = 0%nat)
    by (destruct u; try apply U; reflexivity).
  unfold str_int. destruct (Z.to_int n); cbn [NilZero.string_of_int].
  - apply V.
  - cbn [count_char]. now rewrite V.
Qed.

Lemma sgr_color_is_code (p : string) (c : Z * Z * Z) :
  p <> "" -> count_char ";" p = 0%nat -> is_code (Some (sgr_color p c)).
Proof.
  intros Hne Hp. destruct c as [[r g] b]. eexists. split; [reflexivity | ].
  split.
  - unfold sgr_color. destruct p; [congruence | discriminate].
  - unfold sgr_color. rewrite !count_char_app, !str_int_no_semicolon, Hp.
    reflexivity.
Qed.

(** Every builder a caller can hold has a code in each slot. *)
Lemma reachable_codes (self : builder) :
  reachable self -> is_code (_fg_color self) /\ is_code (_bg_color self).
Proof.
  induction 1 as [theme self Hinit | c self Hr [IHf IHb]].
  - assert (Hd : is_code (_fg_color dark_builder)
                 /\ is_code (_bg_color dark_builder))
      by (split; eexists; repeat split; discriminate).
    assert (Hl : is_code (_fg_color light_builder)
                 /\ is_code (_bg_color light_builder))
      by (split; eexists; repeat split; discriminate).
    destruct (dict_get DEFAULT_COLORS theme) as [cs | ] eqn:Hget.
    + destruct (dict_get_known theme cs Hget) as [-> | ->].
      * rewrite init_dark in Hinit. now inversion Hinit.
      * rewrite init_light in Hinit. now inversion Hinit.
    + unfold init, _set_default_colors in Hinit. cbn [_theme] in Hinit.
      rewrite Hget in Hinit. discriminate.
  - destruct c as [e | e | e | color rgb | color rgb | theme | e | ];
      try (destruct e; split; assumption).
    + cbn [after]. unfold set_fg_color, mbind, lift, assign.
      destruct (color_of_args color rgb) as [col | ex]; cbn [snd];
        [ | now split].
      split; [ | exact IHb].
      apply sgr_color_is_code; [discriminate | reflexivity].
    + cbn [after]. unfold set_bg_color, mbind, lift, assign.
      destruct (color_of_args color rgb) as [col | ex]; cbn [snd];
        [ | now split].
      split; [exact IHf | ].
      apply sgr_color_is_code; [discriminate | reflexivity].
    + cbn [after]. unfold set_theme, mbind, assign, _set_default_colors.
      cbn [_theme with_theme].
      destruct (dict_get DEFAULT_COLORS theme) as [cs | ] eqn:Hget;
        [ | now split].
      assert (Hcs : cs = {| fg := "#e0e0e0"; bg := "#1e1e1e" |}
                    \/ cs = {| fg := "#2e2e2e"; bg := "#f0f0f0" |}).
      { destruct (dict_get_known theme cs Hget) as [-> | ->];
          vm_compute in Hget; injection Hget as <-; [now left | now right]. }
      destruct Hcs as [-> | ->]; vm_compute;
        split; eexists; repeat split; discriminate.
    + cbn [after]. unfold build. destruct (_negative self); now split.
Qed.

(** A string is cut in one way only at its n-th separator. *)
Lemma cut_at_separator (f b x y : string) :
  f ++ ";" ++ x = b ++ ";" ++ y ->
  count_char ";" f = count_char ";" b ->
  f = b.
Proof.
  revert b. induction f as [ | a f IH]; intros [ | c b] E Hc.
  - reflexivity.
  - cbn [append] in E. injection E as <- _. discriminate Hc.
  - cbn [append] in E. injection E as -> _. discriminate Hc.
  - cbn [append] in E. injection E as -> E. f_equal. apply IH; [exact E | ].
    cbn [count_char] in Hc. lia.
Qed.

(** C4, amended: on every builder a caller can hold with the negative flag
    set, both codes are stored, and two successive [build()] calls return
    them in exchanged order (background slot first, then foreground slot
    first) and leave the builder as it was before the first call; the two
    outputs are different exactly when the two stored codes are
    different. *)
Theorem negative_build_twice_toggles (self : builder) :
  reachable self -> _negative self = true ->
  exists f b : string,
    _fg_color self = Some f /\ _bg_color self = Some b
    /\ fst (build self)
       = Return (String ESC "[" ++ join ";" (b :: f :: _styles self) ++ "m")
    /\ codes (snd (build self)) = (Some b, Some f)
    /\ fst (build (snd (build self)))
       = Return (String ESC "[" ++ join ";" (f :: b :: _styles self) ++ "m")
    /\ snd (build (snd (build self))) = self
    /\ (fst (build self) <> fst (build (snd (build self))) <-> f <> b).
Proof.
  intros Hr Hneg.
  destruct (reachable_codes self Hr)
    as [(f & Hf & Hfne & Hfc) (b & Hb & Hbne & Hbc)].
  exists f, b. split; [exact Hf | split; [exact Hb | ]].
  rewrite (build_negative self f b Hf Hb Hfne Hbne Hneg). cbn [fst snd].
  rewrite (build_negative _ b f); try reflexivity; try assumption.
  cbn [fst snd _styles with_bg_color with_fg_color].
  split; [reflexivity | split; [reflexivity | split; [reflexivity | ]]].
  split.
  - destruct self as [st fg0 bg0 th ng]. cbn in *. now subst.
  - split.
    + intros Hdiff ->. now apply Hdiff.
    + intros Hfb E. apply Hfb. injection E as E.
      rewrite !app_assoc in E. cbn [append] in E.
      symmetry. apply (cut_at_separator b f _ _ E). congruence.
Qed.

Lemma negative_build_twice_toggles_witness :
  exists f b : string,
    _fg_color (after (SetNegative true) dark_builder) = Some f
    /\ _bg_color (after (SetNegative true) dark_builder) = Some b
    /\ fst (build (after (SetNegative true) dark_builder))
       = Return (String ESC "["
                 ++ join ";" (b :: f
                              :: _styles (after (SetNegative true)
                                            dark_builder)) ++ "m")
    /\ codes (snd (build (after (SetNegative true) dark_builder)))
       = (Some b, Some f)
    /\ fst (build (snd (build (after (SetNegative true) dark_builder))))
       = Return (String ESC "["
                 ++ join ";" (f :: b
                              :: _styles (after (SetNegative true)
                                            dark_builder)) ++ "m")
    /\ snd (build (snd (build (after (SetNegative true) dark_builder))))
       = after (SetNegative true) dark_builder
    /\ (fst (build (after (SetNegative true) dark_builder))
        <> fst (build (snd (build (after (SetNegative true) dark_builder))))
        <-> f <> b).
Proof.
  apply (negative_build_twice_toggles (after (SetNegative true) dark_builder)).
  - apply reachable_call, (reachable_init "dark"), init_dark.
  - reflexivity.
Defined.

(** The outputs of the two builds on a new dark builder in negative mode. *)
Example negative_build_twice_dark :
  fst (build (after (SetNegative true) dark_builder))
  = Return (String ESC "[48;2;30;30;30;38;2;224;224;224m")
  /\ fst (build (snd (build (after (SetNegative true) dark_builder))))
     = Return (String ESC "[38;2;224;224;224;48;2;30;30;30m").
Proof. split; vm_compute; reflexivity. Qed.

End BuilderProperties.

(** ** Colour normalisation *)

Module ColorProperties.
Import Py AnsiEscapeCodeBuilder.

Lemma in_all_ascii (c : ascii) : In c all_ascii.
Proof.
  unfold all_ascii. rewrite <- (ascii_nat_embedding c).
  apply in_map, in_seq. pose proof (nat_ascii_bounded c). lia.
Qed.

(** A property checked on every character holds of each. *)
Lemma for_all_ascii (p : ascii -> bool) :
  forallb p all_ascii = true -> forall c, p c = true.
Proof.
  intros H c. rewrite forallb_forall in H. apply H, in_all_ascii.
Qed.

Lemma hex_digit_is_not_hash (c : ascii) :
  is_hex_digit c = true -> Ascii.eqb "#" c = false.
Proof.
  revert c.
  assert (H : forall c, implb (is_hex_digit c) (negb (Ascii.eqb "#" c)) = true)
    by (apply for_all_ascii; vm_compute; reflexivity).
  intros c Hc. specialize (H c). rewrite Hc in H. cbn [implb] in H.
  now destruct (Ascii.eqb "#" c).
Qed.

(** [int(s, 16)] on two hexadecimal digits. *)
Lemma int16_two_digits (a b : ascii) :
  is_hex_digit a = true -> is_hex_digit b = true ->
  int16 (String a (String b EmptyString))
  = Return (16 * hex_value a + hex_value b).
Proof.
  assert (H : forall a b,
             implb (is_hex_digit a && is_hex_digit b)
                   (result_Z_eqb (int16 (String a (String b EmptyString)))
                                 (16 * hex_value a + hex_value b)) = true).
  { intro a0. apply for_all_ascii. revert a0. apply for_all_ascii.
    vm_compute. reflexivity. }
  intros Ha Hb. specialize (H a b). rewrite Ha, Hb in H. cbn [andb implb] in H.
  destruct (int16 (String a (String b EmptyString))) as [z | e];
    cbn [result_Z_eqb] in H; [ | discriminate].
  apply Z.eqb_eq in H. now subst.
Qed.

Lemma normalize_hex3 (a b c : ascii) :
  is_hex_digit a = true -> is_hex_digit b = true -> is_hex_digit c = true ->
  _normalize_color (String "#" (String a (String b (String c EmptyString))))
  = Return (16 * hex_value a + hex_value a, 16 * hex_value b + hex_value b,
            16 * hex_value c + hex_value c).
Proof.
  intros Ha Hb Hc. unfold _normalize_color.
  cbn [prefix]. destruct (ascii_dec "#" "#") as [_ | N]; [ | now elim N].
  cbn [lstrip]. rewrite Ascii.eqb_refl. cbn [lstrip].
  rewrite (hex_digit_is_not_hash a Ha).
  cbn [String.length Nat.eqb list_ascii_of_string].
  rewrite (int16_two_digits a a Ha Ha), (int16_two_digits b b Hb Hb),
    (int16_two_digits c c Hc Hc).
  reflexivity.
Qed.

Lemma normalize_hex6 (a b c d e f : ascii) :
  is_hex_digit a = true -> is_hex_digit b = true -> is_hex_digit c = true ->
  is_hex_digit d = true -> is_hex_digit e = true -> is_hex_digit f = true ->
  _normalize_color
    (String "#" (String a (String b (String c (String d (String e
       (String f EmptyString)))))))
  = Return (16 * hex_value a + hex_value b, 16 * hex_value c + hex_value d,
            16 * hex_value e + hex_value f).
Proof.
  intros Ha Hb Hc Hd He Hf. unfold _normalize_color.
  cbn [prefix]. destruct (ascii_dec "#" "#") as [_ | N]; [ | now elim N].
  cbn [lstrip]. rewrite Ascii.eqb_refl. cbn [lstrip].
  rewrite (hex_digit_is_not_hash a Ha).
  cbn [String.length Nat.eqb slice Nat.sub substring].
  rewrite (int16_two_digits a b Ha Hb), (int16_two_digits c d Hc Hd),
    (int16_two_digits e f He Hf).
  reflexivity.
Qed.

Lemma normalize_hex_other_length (color : string) :
  prefix "#" color = true ->
  String.length (lstrip (Ascii.eqb "#") color) <> 3%nat ->
  String.length (lstrip (Ascii.eqb "#") color) <> 6%nat ->
  _normalize_color color = Raise (ValueError "Invalid HEX color format.").
Proof.
  intros Hp H3 H6. unfold _normalize_color. rewrite Hp.
  rewrite (proj2 (Nat.eqb_neq _ _) H6), (proj2 (Nat.eqb_neq _ _) H3).
  reflexivity.
Qed.

Lemma hex_value_range (c : ascii) :
  is_hex_digit c = true -> 0 <= hex_value c <= 15.
Proof.
  assert (H : forall c, implb (is_hex_digit c)
                          ((0 <=? hex_value c) && (hex_value c <=? 15)) = true)
    by (apply for_all_ascii; vm_compute; reflexivity).
  intros Hc. specialize (H c). rewrite Hc in H. cbn [implb] in H.
  apply andb_prop in H as [H0 H1]. lia.
Qed.

(** C8: ["#fff"] and ["#ffffff"] normalise to (255, 255, 255) and
    ["#072448"] to (7, 36, 72); after the leading [#], three hexadecimal
    digits give three bytes with each digit written twice, six hexadecimal
    digits give the three bytes of the three pairs, and any other length
    raises the invalid-HEX-format [ValueError]. *)
Theorem hex_normalization :
  _normalize_color "#fff" = Return (255, 255, 255)
  /\ _normalize_color "#ffffff" = Return (255, 255, 255)
  /\ _normalize_color "#072448" = Return (7, 36, 72)
  /\ (forall a b c : ascii,
        is_hex_digit a = true -> is_hex_digit b = true ->
        is_hex_digit c = true ->
        _normalize_color
          (String "#" (String a (String b (String c EmptyString))))
        = Return (16 * hex_value a + hex_value a,
                  16 * hex_value b + hex_value b,
                  16 * hex_value c + hex_value c)
        /\ 0 <= 16 * hex_value a + hex_value a <= 255
        /\ 0 <= 16 * hex_value b + hex_value b <= 255
        /\ 0 <= 16 * hex_value c + hex_value c <= 255)
  /\ (forall a b c d e f : ascii,
        is_hex_digit a = true -> is_hex_digit b = true ->
        is_hex_digit c = true -> is_hex_digit d = true ->
        is_hex_digit e = true -> is_hex_digit f = true ->
        _normalize_color
          (String "#" (String a (String b (String c (String d (String e
             (String f EmptyString)))))))
        = Return (16 * hex_value a + hex_value b,
                  16 * hex_value c + hex_value d,
                  16 * hex_value e + hex_value f)
        /\ 0 <= 16 * hex_value a + hex_value b <= 255
        /\ 0 <= 16 * hex_value c + hex_value d <= 255
        /\ 0 <= 16 * hex_value e + hex_value f <= 255)
  /\ (forall color : string,
        prefix "#" color = true ->
        String.length (lstrip (Ascii.eqb "#") color) <> 3%nat ->
        String.length (lstrip (Ascii.eqb "#") color) <> 6%nat ->
        _normalize_color color
        = Raise (ValueError "Invalid HEX color format.")).
Proof.
  split; [vm_compute; reflexivity | ].
  split; [vm_compute; reflexivity | ].
  split; [vm_compute; reflexivity | ].
  split; [ | split].
  - intros a b c Ha Hb Hc.
    pose proof (hex_value_range a Ha). pose proof (hex_value_range b Hb).
    pose proof (hex_value_range c Hc).
    split; [now apply normalize_hex3 | lia].
  - intros a b c d e f Ha Hb Hc Hd He Hf.
    pose proof (hex_value_range a Ha). pose proof (hex_value_range b Hb).
    pose proof (hex_value_range c Hc). pose proof (hex_value_range d Hd).
    pose proof (hex_value_range e He). pose proof (hex_value_range f Hf).
    split; [now apply normalize_hex6 | lia].
  - exact normalize_hex_other_length.
Qed.

(** The three general parts of [hex_normalization], each at an input. *)
Lemma hex_normalization_witness :
  _normalize_color "#a1C" = Return (170, 17, 204)
  /\ _normalize_color "#0a1B2c" = Return (10, 27, 44)
  /\ _normalize_color "#ffff" = Raise (ValueError "Invalid HEX color format.")
  /\ _normalize_color "#" = Raise (ValueError "Invalid HEX color format.").
Proof.
  destruct hex_normalization as (_ & _ & _ & H3 & H6 & Hbad).
  split; [ | split; [ | split]].
  - apply (H3 "a" "1" "C")%char; reflexivity.
  - apply (H6 "0" "a" "1" "B" "2" "c")%char; reflexivity.
  - apply (Hbad "#ffff"); [reflexivity | discriminate | discriminate].
  - apply (Hbad "#"); [reflexivity | discriminate | discriminate].
Defined.

(** *** HSL *)

Import StringFacts.

Lemma hsl_string_shape (H S L : string) :
  hsl_string H S L
  = "hsl(" ++ (H ++ String "," ((S ++ "%") ++ String "," (L ++ "%"))) ++ ")".
Proof.
  unfold hsl_string.
  repeat first [rewrite app_assoc | progress cbn [append]]. reflexivity.
Qed.

Lemma slice_hsl_body (X : string) : slice_to_last 4 ("hsl(" ++ X ++ ")") = X.
Proof.
  unfold slice_to_last. cbn [append String.length substring].
  rewrite length_app. cbn [String.length].
  replace (S (S (S (S (String.length X + 1)))) - 1 - 4)%nat
    with (String.length X) by lia.
  apply substring_app_left.
Qed.

Lemma hsl_fields (H S L : string) :
  contains "," H = false -> contains "," S = false ->
  contains "," L = false ->
  split_on "," (slice_to_last 4 (hsl_string H S L))
  = [H; S ++ "%"; L ++ "%"].
Proof.
  intros HH HS HL. rewrite hsl_string_shape, slice_hsl_body.
  rewrite split_on_first by assumption.
  rewrite split_on_first
    by (rewrite contains_app, HS; reflexivity).
  rewrite split_on_absent
    by (rewrite contains_app, HL; reflexivity).
  reflexivity.
Qed.

(** [int] on a finite float with a fraction: the integer next to it in the
    direction of zero. *)
Lemma int_of_float_truncates (x : float) (neg : bool) (m p : positive) :
  Prim2SF x = S754_finite neg m (Zneg p) ->
  exists z : Z,
    int_of_float x = Return z
    /\ Z.abs z * 2 ^ Zpos p <= Zpos m < (Z.abs z + 1) * 2 ^ Zpos p
    /\ (if neg then z <= 0 else 0 <= z).
Proof.
  intros Hx. unfold int_of_float. rewrite Hx.
  set (q := Z.quot (Zpos m) (Zpos (2 ^ p))).
  assert (Hpow : Zpos (2 ^ p) = 2 ^ Zpos p) by (now rewrite Pos2Z.inj_pow).
  assert (Hq : 0 <= q /\ q * 2 ^ Zpos p <= Zpos m < (q + 1) * 2 ^ Zpos p).
  { subst q. rewrite Hpow.
    assert (0 < 2 ^ Zpos p) by (apply Z.pow_pos_nonneg; lia).
    rewrite Z.quot_div_nonneg by lia.
    pose proof (Z.div_mod (Zpos m) (2 ^ Zpos p)).
    pose proof (Z.mod_pos_bound (Zpos m) (2 ^ Zpos p)).
    pose proof (Z.div_pos (Zpos m) (2 ^ Zpos p)).
    split; [lia | nia]. }
  destruct Hq as [Hq0 Hq].
  exists (if neg then - q else q). split; [reflexivity | ].
  destruct neg.
  - rewrite Z.abs_opp, (Z.abs_eq q) by lia. split; [exact Hq | lia].
  - rewrite (Z.abs_eq q) by lia. split; [exact Hq | lia].
Qed.

(** C9: the text [hsl(H,S%,L%)] is read as three floats, the hue divided
    by 360 and the two percentages by 100, passed through
    [colorsys.hls_to_rgb], and each channel times 255 is cut to an integer
    toward zero; [hsl(0,100%,50%)] gives (255, 0, 0), and the half in
    127.5 is dropped, not rounded up. *)
Theorem hsl_normalization (H S L : string) (h s l : float) :
  contains "," H = false -> contains "," S = false ->
  contains "," L = false ->
  contains "%" S = false -> contains "%" L = false ->
  float_of_string H = Return h ->
  float_of_string S = Return s ->
  float_of_string L = Return l ->
  _normalize_color (hsl_string H S L) = hsl_to_rgb255 h s l
  /\ _normalize_color "hsl(0,100%,50%)" = Return (255, 0, 0)
  /\ _normalize_color "hsl(0,0%,50%)" = Return (127, 127, 127)
  /\ int_of_float 127.5 = Return 127
  /\ int_of_float (-127.5) = Return (-127)
  /\ (forall (x : float) (neg : bool) (m p : positive),
        Prim2SF x = S754_finite neg m (Zneg p) ->
        exists z : Z,
          int_of_float x = Return z
          /\ Z.abs z * 2 ^ Zpos p <= Zpos m < (Z.abs z + 1) * 2 ^ Zpos p
          /\ (if neg then z <= 0 else 0 <= z)).
Proof.
  intros HH HS HL PS PL Fh Fs Fl.
  split; [ | split; [vm_compute; reflexivity | ]].
  - unfold _normalize_color.
    assert (P1 : prefix "#" (hsl_string H S L) = false).
    { unfold hsl_string. cbn [append prefix].
      now destruct (ascii_dec "#" "h"). }
    assert (P2 : prefix "hsl(" (hsl_string H S L) = true).
    { unfold hsl_string. cbn [append prefix].
      repeat (destruct (ascii_dec _ _) as [_ | N]; [ | now elim N]).
      match goal with |- prefix "" ?x = true => now destruct x end. }
    rewrite P1, P2, (hsl_fields H S L HH HS HL).
    cbn [index nth_error bind]. rewrite Fh. cbn [bind].
    rewrite (strip_trailing "%" S PS), Fs. cbn [bind].
    rewrite (strip_trailing "%" L PL), Fl. cbn [bind].
    reflexivity.
  - split; [vm_compute; reflexivity | ].
    split; [vm_compute; reflexivity | ].
    split; [vm_compute; reflexivity | ].
    exact int_of_float_truncates.
Qed.

Lemma hsl_normalization_witness :
  _normalize_color (hsl_string "210" "50" "40") = Return (50, 101, 153).
Proof.
  refine (eq_trans
            (proj1 (hsl_normalization "210" "50" "40" 210 50 40
                      _ _ _ _ _ _ _ _)) _);
    vm_compute; reflexivity.
Defined.

End ColorProperties.

(** ** The manifest verifier *)

Module VerifierProperties.
Import Py os ThemeManager.

(** The published test vectors of SHA-256 for the empty message and for
    [abc]. *)
Example sha256_empty :
  hashlib.sha256_hexdigest []
  = "e3b0c44298fc1c149afbf4c8996fb92427ae41e4649b934ca495991b7852b855".
Proof. vm_compute. reflexivity. Qed.

Example sha256_abc :
  hashlib.sha256_hexdigest (list_byte_of_string "abc")
  = "ba7816bf8f01cfea414140de5dae2223b00361a396177a9cb410ff61f20015ad".
Proof. vm_compute. reflexivity. Qed.

(** [text_eqb] decides the equality of texts. *)
Lemma text_eqb_eq (a b : text) : text_eqb a b = true <-> a = b.
Proof.
  revert b. induction a as [ | c a IH]; intros [ | d b]; cbn [text_eqb];
    try (split; [discriminate | discriminate]); [now split | ].
  rewrite Bool.andb_true_iff, Z.eqb_eq, IH. split.
  - now intros [-> ->].
  - intros H. injection H as -> ->. now split.
Qed.

Section Scan.

Variable self : ThemeManager.
Variable fs : filesystem.
Variable target : string.
Variable failure : option exn.

Let mp := manifest_path self.

(** What one iteration of the loop does with a line it passes over. *)
Lemma scan_step_passed_over (line : text) (rest : list text) :
  passed_over self target line = true ->
  scan_manifest self fs mp target failure (line :: rest)
  = (fst (scan_manifest self fs mp target failure rest),
     ReadLine mp line :: snd (scan_manifest self fs mp target failure rest)).
Proof.
  unfold passed_over, malformed, recorded, is_blank, entry.
  intros H. cbn [scan_manifest].
  destruct (nonempty (text_strip line)); cbn [negb andb] in H.
  - destruct (text_split line) as [ | a [ | b [ | c l]]]; try discriminate.
    rewrite Bool.andb_true_l in H. unfold iobind, emit, ret.
    destruct (text_eqb (text_of_string target)
                (path_join_text (text_of_string (themes_dir self)) a));
      [discriminate | ].
    now destruct (scan_manifest self fs mp target failure rest)
      as [[r | e] t].
  - unfold iobind, emit.
    now destruct (scan_manifest self fs mp target failure rest)
      as [[r | e] t].
Qed.

(** The loop passes over a prefix of such lines, reading each. *)
Lemma scan_passed_over (pre rest : list text) :
  forallb (passed_over self target) pre = true ->
  scan_manifest self fs mp target failure (pre ++ rest)
  = (fst (scan_manifest self fs mp target failure rest),
     (map (ReadLine mp) pre
      ++ snd (scan_manifest self fs mp target failure rest))%list).
Proof.
  induction pre as [ | line pre IH]; intros H.
  - cbn [app map].
    now destruct (scan_manifest self fs mp target failure rest).
  - cbn [forallb] in H. apply andb_prop in H as [Hl Hpre].
    cbn [app map]. rewrite (scan_step_passed_over line _ Hl), (IH Hpre).
    reflexivity.
Qed.


(** The loop at the first entry for the target, the theme file readable. *)
Lemma scan_step_recorded (line digest : text) (rest : list text)
    (content : list byte) :
  recorded self target line = Some digest ->
  fs target = Some (File true content) ->
  fst (scan_manifest self fs mp target failure (line :: rest))
  = Return (text_eqb (text_of_string (hashlib.sha256_hexdigest content))
                     digest).
Proof.
  unfold recorded, is_blank, entry. intros H Hfs. cbn [scan_manifest].
  destruct (nonempty (text_strip line)); cbn [negb] in H;
    [ | discriminate].
  destruct (text_split line) as [ | a [ | b [ | c l]]]; try discriminate.
  unfold iobind, emit, ret, open.
  destruct (text_eqb (text_of_string target)
              (path_join_text (text_of_string (themes_dir self)) a));
    [ | discriminate].
  injection H as ->. rewrite Hfs. cbn.
  now destruct (text_eqb (text_of_string (hashlib.sha256_hexdigest content))
                         digest).
Qed.

End Scan.

Section ScanToTheEnd.

Variable self : ThemeManager.
Variable fs : filesystem.
Variable target : string.

Local Abbreviation mp := (manifest_path self).

(** The loop at the end of the manifest. *)
Lemma scan_end :
  scan_manifest self fs mp target None []
  = (Return false,
     [Print "Theme file {theme_file} not found in MANIFEST." (Str target)]).
Proof. reflexivity. Qed.

(** The loop over a manifest of lines it passes over, read to its end. *)
Lemma scan_no_entry (lines : list text) :
  forallb (passed_over self target) lines = true ->
  scan_manifest self fs mp target None lines
  = (Return false,
     (map (ReadLine mp) lines
      ++ [Print "Theme file {theme_file} not found in MANIFEST."
                (Str target)])%list).
Proof.
  intros H. rewrite <- (app_nil_r lines) at 1.
  now rewrite (scan_passed_over self fs target None lines [] H), scan_end.
Qed.

End ScanToTheEnd.

Section Validate.

Variable self : ThemeManager.
Variable fs : filesystem.
Variable theme_file : option string.

Let target := target_path self theme_file.
Let mp := manifest_path self.

Lemma validate_theme_absent :
  fs target = None ->
  validate_theme self fs theme_file
  = (Return false,
     [Exists target false;
      Print "Theme file {theme_file} does not exist." (Str target)]).
Proof.
  intros H. unfold validate_theme. fold (target_path self theme_file).
  fold target. unfold path_exists. rewrite H. reflexivity.
Qed.

(** With the theme file present and the manifest open, the call is the
    loop over the lines of the manifest, an [IOError] of the loop caught. *)
Lemma validate_theme_scans (n : node) (m : list byte) :
  fs target = Some n ->
  fs mp = Some (File true m) ->
  validate_theme self fs theme_file
  = let s := scan_manifest self fs mp target (decoding_failure m)
                           (manifest_lines m) in
    match fst s with
    | Raise (IOError k) =>
        (Return false,
         Exists target true :: Open mp "r" :: snd s
         ++ [Print "Error reading MANIFEST file: {e}" (Exn (IOError k))])%list
    | r => (r, Exists target true :: Open mp "r" :: snd s)
    end.
Proof.
  intros Ht Hm. unfold validate_theme. fold (target_path self theme_file).
  fold target. fold (manifest_path self). fold mp.
  unfold path_exists, open, manifest_lines, decoding_failure.
  rewrite Ht, Hm. cbn. destruct (text_lines m) as [lines failure].
  cbn [fst snd].
  destruct (scan_manifest self fs mp target failure lines) as [[r | e] t];
    [reflexivity | ].
  destruct e; reflexivity.
Qed.

Lemma validate_theme_manifest_unopenable (n : node) :
  fs target = Some n ->
  cannot_open fs mp = true ->
  exists k,
    validate_theme self fs theme_file
    = (Return false,
       [Exists target true; Open mp "r";
        Print "Error reading MANIFEST file: {e}" (Exn (IOError k))]).
Proof.
  intros Ht Hm. unfold validate_theme. fold (target_path self theme_file).
  fold target. fold (manifest_path self). fold mp.
  unfold path_exists, open. rewrite Ht. unfold cannot_open in Hm.
  destruct (fs mp) as [[ | [ | ] c] | ]; try discriminate;
    eexists; reflexivity.
Qed.

End Validate.

(** The example entry for [a.theme] records the digest of [abc] for the
    path [themes.d/a.theme]. *)
Lemma listed_digest_matches :
  recorded example_manager "themes.d/a.theme"
           (text_of_string (example_entry "a.theme"))
  = Some (text_of_string
            "ba7816bf8f01cfea414140de5dae2223b00361a396177a9cb410ff61f20015ad").
Proof. vm_compute. reflexivity. Qed.

(** C6: when the theme file does not exist, [validate_theme] prints that
    it does not and returns [False]; the only things it did before are the
    existence test and the print, so the manifest was neither opened nor
    read, whatever the file system holds at the manifest path. *)
Theorem validate_theme_missing_file
    (self : ThemeManager) (fs : filesystem) (theme_file : option string) :
  fs (target_path self theme_file) = None ->
  validate_theme self fs theme_file
  = (Return false,
     [Exists (target_path self theme_file) false;
      Print "Theme file {theme_file} does not exist."
            (Str (target_path self theme_file))])
  /\ forall ev, In ev (snd (validate_theme self fs theme_file)) ->
       match ev with
       | Open _ _ | ReadLine _ _ | Read _ => False
       | Exists _ _ | Print _ _ => True
       end.
Proof.
  intros H. rewrite (validate_theme_absent self fs theme_file H).
  split; [reflexivity | ].
  intros ev [<- | [<- | []]]; exact I.
Qed.

Lemma validate_theme_missing_file_witness :
  validate_theme example_manager
    (example_fs None (Some (example_entry "a.theme"))) (Some "themes.d/a.theme")
  = (Return false,
     [Exists "themes.d/a.theme" false;
      Print "Theme file {theme_file} does not exist."
            (Str "themes.d/a.theme")]).
Proof.
  apply (validate_theme_missing_file example_manager
           (example_fs None (Some (example_entry "a.theme")))
           (Some "themes.d/a.theme")).
  reflexivity.
Defined.

(** C7, as stated, fails: the theme file [themes.d/a.theme] exists and no
    line of the manifest names it, yet the call does not scan the manifest
    to its end and return [False].  With a line of one token between two
    entries for other files, the call raises the [ValueError] of the
    unpacking at that line and never reads the entry after it; and with no
    manifest to open, the call returns [False] having read no line at
    all. *)
Lemma stray_line_or_missing_manifest_stops_the_scan :
  (map (recorded example_manager "themes.d/a.theme")
       (manifest_lines
          (list_byte_of_string
             (example_entry "b.theme" ++ "stray" ++ String "010" ""
              ++ example_entry "c.theme")))
   = [None; None; None]
   /\ validate_theme example_manager
        (example_fs (Some "abc")
           (Some (example_entry "b.theme" ++ "stray" ++ String "010" ""
                  ++ example_entry "c.theme")))
        (Some "themes.d/a.theme")
      = (Raise (ValueError "not enough values to unpack (expected 2, got 1)"),
         [Exists "themes.d/a.theme" true; Open "themes.d/MANIFEST" "r";
          ReadLine "themes.d/MANIFEST"
                   (text_of_string (example_entry "b.theme"));
          ReadLine "themes.d/MANIFEST"
                   (text_of_string ("stray" ++ String "010" ""))]))
  /\ validate_theme example_manager (example_fs (Some "abc") None)
       (Some "themes.d/a.theme")
     = (Return false,
        [Exists "themes.d/a.theme" true; Open "themes.d/MANIFEST" "r";
         Print "Error reading MANIFEST file: {e}" (Exn (IOError 2))]).
Proof. vm_compute. repeat split; reflexivity. Qed.

(** C7, amended: when the theme file exists, the manifest opens, decodes
    to its end and is well-formed (no line of it is malformed), and no
    entry of it names the theme file, [validate_theme] reads every line of
    the manifest, prints that the file is not in the manifest and returns
    [False]; the digests the manifest records play no part, so one of them
    may be the digest of the theme file. *)
Theorem validate_theme_not_in_manifest
    (self : ThemeManager) (fs : filesystem) (theme_file : option string)
    (n : node) (m : list byte) :
  fs (target_path self theme_file) = Some n ->
  fs (manifest_path self) = Some (File true m) ->
  decoding_failure m = None ->
  forallb (fun line => negb (malformed line)) (manifest_lines m) = true ->
  (forall line, In line (manifest_lines m) ->
                recorded self (target_path self theme_file) line = None) ->
  validate_theme self fs theme_file
  = (Return false,
     Exists (target_path self theme_file) true
     :: Open (manifest_path self) "r"
     :: map (ReadLine (manifest_path self)) (manifest_lines m)
     ++ [Print "Theme file {theme_file} not found in MANIFEST."
               (Str (target_path self theme_file))])%list.
Proof.
  intros Ht Hm Hd Hwf Hnone.
  rewrite (validate_theme_scans self fs theme_file n m Ht Hm), Hd.
  assert (Hpass : forallb (passed_over self (target_path self theme_file))
                          (manifest_lines m) = true).
  { apply forallb_forall. intros line Hin. unfold passed_over.
    rewrite forallb_forall in Hwf. rewrite (Hwf line Hin), (Hnone line Hin).
    reflexivity. }
  cbv zeta. rewrite (scan_no_entry self fs _ _ Hpass). reflexivity.
Qed.

Lemma validate_theme_not_in_manifest_witness :
  hashlib.sha256_hexdigest (list_byte_of_string "abc")
  = "ba7816bf8f01cfea414140de5dae2223b00361a396177a9cb410ff61f20015ad"
  /\ validate_theme example_manager
       (example_fs (Some "abc") (Some (example_entry "b.theme")))
       (Some "themes.d/a.theme")
     = (Return false,
        [Exists "themes.d/a.theme" true; Open "themes.d/MANIFEST" "r";
         ReadLine "themes.d/MANIFEST"
                  (text_of_string (example_entry "b.theme"));
         Print "Theme file {theme_file} not found in MANIFEST."
               (Str "themes.d/a.theme")]).
Proof.
  split; [exact sha256_abc | ].
  refine (eq_trans
            (validate_theme_not_in_manifest example_manager
               (example_fs (Some "abc") (Some (example_entry "b.theme")))
               (Some "themes.d/a.theme")
               (File true (list_byte_of_string "abc"))
               (list_byte_of_string (example_entry "b.theme"))
               _ _ _ _ _) _);
    try (vm_compute; reflexivity).
  intros line [<- | []]. vm_compute. reflexivity.
Defined.

(** C1, as stated, fails: the path [themes.d/a.theme] exists on disk, as a
    file holding [abc] that the process may not read; the manifest opens
    and decodes, its one line is well-formed, names the file and records
    the SHA-256 digest of [abc]; yet the call returns [False]: the file
    could not be opened, and the handler of the manifest's errors caught
    that. *)
Lemma unreadable_theme_with_the_recorded_digest_is_not_validated :
  text_lines (list_byte_of_string (example_entry "a.theme"))
  = ([text_of_string (example_entry "a.theme")], None)
  /\ malformed (text_of_string (example_entry "a.theme")) = false
  /\ recorded example_manager "themes.d/a.theme"
              (text_of_string (example_entry "a.theme"))
     = Some (text_of_string
               (hashlib.sha256_hexdigest (list_byte_of_string "abc")))
  /\ validate_theme example_manager
       (with_node "themes.d/a.theme"
          (File false (list_byte_of_string "abc"))
          (example_fs None (Some (example_entry "a.theme"))))
       (Some "themes.d/a.theme")
     = (Return false,
        [Exists "themes.d/a.theme" true; Open "themes.d/MANIFEST" "r";
         ReadLine "themes.d/MANIFEST"
                  (text_of_string (example_entry "a.theme"));
         Open "themes.d/a.theme" "rb";
         Print "Error reading MANIFEST file: {e}" (Exn (IOError 13))]).
Proof. vm_compute. repeat split; reflexivity. Qed.

(** C1, amended: when the theme path names a file that opens for reading,
    with contents [content], the manifest opens, the lines read before the
    first entry naming the theme file are blank or entries for other
    files, and that entry records [digest], [validate_theme] returns
    [True] if the lower-case hexadecimal SHA-256 digest of [content] is
    the text [digest], and [False] otherwise. *)
Theorem validate_theme_true_iff_digest
    (self : ThemeManager) (fs : filesystem) (theme_file : option string)
    (content m : list byte) (pre post : list text) (line digest : text) :
  fs (target_path self theme_file) = Some (File true content) ->
  fs (manifest_path self) = Some (File true m) ->
  manifest_lines m = (pre ++ line :: post)%list ->
  forallb (passed_over self (target_path self theme_file)) pre = true ->
  recorded self (target_path self theme_file) line = Some digest ->
  fst (validate_theme self fs theme_file)
  = Return (text_eqb (text_of_string (hashlib.sha256_hexdigest content))
                     digest)
  /\ (fst (validate_theme self fs theme_file) = Return true
      <-> text_of_string (hashlib.sha256_hexdigest content) = digest).
Proof.
  intros Ht Hm Hlines Hpre Hrec.
  assert (E : fst (validate_theme self fs theme_file)
              = Return (text_eqb
                          (text_of_string (hashlib.sha256_hexdigest content))
                          digest)).
  { rewrite (validate_theme_scans self fs theme_file _ m Ht Hm), Hlines.
    cbv zeta. rewrite (scan_passed_over self fs _ _ _ _ Hpre). cbn [fst snd].
    rewrite (scan_step_recorded self fs _ _ line digest post content Hrec Ht).
    reflexivity. }
  split; [exact E | ]. rewrite E. split.
  - intros H. injection H as H. now apply text_eqb_eq.
  - intros H. apply text_eqb_eq in H. now rewrite H.
Qed.

Lemma validate_theme_true_iff_digest_witness :
  fst (validate_theme example_manager
         (example_fs (Some "abc")
            (Some (example_entry "b.theme" ++ String "010" ""
                   ++ example_entry "a.theme")))
         (Some "themes.d/a.theme"))
  = Return true.
Proof.
  refine (eq_trans
            (proj1 (validate_theme_true_iff_digest example_manager
                      (example_fs (Some "abc")
                         (Some (example_entry "b.theme" ++ String "010" ""
                                ++ example_entry "a.theme")))
                      (Some "themes.d/a.theme")
                      (list_byte_of_string "abc")
                      (list_byte_of_string
                         (example_entry "b.theme" ++ String "010" ""
                          ++ example_entry "a.theme"))
                      [text_of_string (example_entry "b.theme"); [10]] []
                      (text_of_string (example_entry "a.theme"))
                      (text_of_string
                         "ba7816bf8f01cfea414140de5dae2223b00361a396177a9cb410ff61f20015ad")
                      _ _ _ _ _)) _);
    vm_compute; reflexivity.
Defined.




(** A manifest that does not decode: the byte A0 alone is not UTF-8, and
    the call raises [UnicodeDecodeError] at the first read, before any
    line; the handler of [IOError] does not catch it. *)
Example undecodable_manifest_raises :
  validate_theme example_manager
    (example_fs (Some "abc")
       (Some (example_entry "b.theme" ++ "a.theme" ++ String "160" ""
              ++ "ba7816bf8f01cfea414140de5dae2223b00361a396177a9cb410ff61f20015ad")))
    (Some "themes.d/a.theme")
  = (Raise UnicodeDecodeError,
     [Exists "themes.d/a.theme" true; Open "themes.d/MANIFEST" "r"]).
Proof. vm_compute. reflexivity. Qed.

(** The bytes C2 A0 decode to the no-break space, which is whitespace: it
    separates the two tokens of an entry as a space does. *)
Example no_break_space_separates_the_tokens :
  fst (validate_theme example_manager
         (example_fs (Some "abc")
            (Some ("a.theme" ++ String "194" (String "160" "")
                   ++ "ba7816bf8f01cfea414140de5dae2223b00361a396177a9cb410ff61f20015ad")))
         (Some "themes.d/a.theme"))
  = Return true.
Proof. vm_compute. reflexivity. Qed.

(** The manifest is decoded a chunk at a time: a byte that does not decode
    in the second chunk is not met when the entry naming the theme file is
    in the first, and the call returns [True]; the same byte in the first
    chunk, after the entry, makes the call raise. *)
Example undecodable_byte_in_a_later_chunk_is_not_met :
  fst (validate_theme example_manager
         (example_fs (Some "abc")
            (Some (example_entry "a.theme" ++ blank_lines 4096
                   ++ String "255" "")))
         (Some "themes.d/a.theme"))
  = Return true
  /\ fst (validate_theme example_manager
            (example_fs (Some "abc")
               (Some (example_entry "a.theme" ++ blank_lines 16
                      ++ String "255" "")))
            (Some "themes.d/a.theme"))
     = Raise UnicodeDecodeError.
Proof. vm_compute. split; reflexivity. Qed.

(** The comparison is of strings: the same digest in upper case does not
    match. *)
Example upper_case_digest_does_not_match :
  fst (validate_theme example_manager
         (example_fs (Some "abc")
            (Some "a.theme BA7816BF8F01CFEA414140DE5DAE2223B00361A396177A9CB410FF61F20015AD"))
         (Some "themes.d/a.theme"))
  = Return false.
Proof. vm_compute. reflexivity. Qed.

(** A theme path that exists but cannot be read as a file (here a
    directory the manifest lists) raises an [IOError] inside the loop, which
    is caught like one of the manifest. *)
Example unreadable_theme_is_caught :
  validate_theme
    {| default_theme := "monokai"; themes_dir := "";
       manifest_file := "themes.d/MANIFEST"; log_file := "theme.log" |}
    (example_fs None (Some "themes.d 0"))
    (Some "themes.d")
  = (Return false,
     [Exists "themes.d" true; Open "themes.d/MANIFEST" "r";
      ReadLine "themes.d/MANIFEST" (text_of_string "themes.d 0");
      Open "themes.d" "rb";
      Print "Error reading MANIFEST file: {e}" (Exn (IOError 21))]).
Proof. vm_compute. reflexivity. Qed.

End VerifierProperties.

(** ** More on the escape-code builder *)

Module BuilderExtras.
Import Py AnsiEscapeCodeBuilder BuilderCalls StringFacts BuilderProperties.

Lemma with_styles_same (self : builder) :
  with_styles (_styles self) self = self.
Proof. now destruct self. Qed.

Lemma style_call_appends (c : call) (t : string) (self : builder) :
  style_token c = Some t ->
  after c self = with_styles (_styles self ++ [t]) self.
Proof.
  destruct c as [e | e | e | ? ? | ? ? | ? | ? | ]; try discriminate;
    intros [= <-]; now destruct e.
Qed.

(** Style setters only append, in call order and without merging repeats:
    after any sequence of [set_bold], [set_italic] and [set_underline]
    calls the style list is the old one followed by one code per call, and
    nothing else of the builder has changed. *)
Theorem style_calls_accumulate
    (cs : list call) (tokens : list string) (self : builder) :
  map style_token cs = map Some tokens ->
  after_all cs self = with_styles (_styles self ++ tokens) self.
Proof.
  revert tokens self. induction cs as [ | c cs IH]; intros tokens self H.
  - destruct tokens; [ | discriminate].
    cbn [after_all fold_left]. now rewrite app_nil_r, with_styles_same.
  - destruct tokens as [ | t ts]; [discriminate | ].
    cbn [map] in H. injection H as Hc Hcs.
    unfold after_all in *. cbn [fold_left].
    rewrite (style_call_appends c t self Hc), (IH ts _ Hcs).
    unfold with_styles. cbn [_styles _fg_color _bg_color _theme _negative].
    now rewrite <- List.app_assoc.
Qed.

Lemma style_calls_accumulate_witness :
  after_all [SetBold true; SetBold true; SetItalic false; SetBold false]
            dark_builder
  = with_styles (_styles dark_builder ++ ["1"; "1"; "23"; "22"]) dark_builder.
Proof.
  apply (style_calls_accumulate
           [SetBold true; SetBold true; SetItalic false; SetBold false]
           ["1"; "1"; "23"; "22"] dark_builder).
  reflexivity.
Defined.

(** What a colour setter does, by the outcome of reading its arguments. *)
Lemma set_fg_color_cases (color : color_arg) (rgb : rgb_arg) (self : builder) :
  set_fg_color color rgb self
  = match color_of_args color rgb with
    | Return c => (Return tt, with_fg_color (Some (sgr_color "38" c)) self)
    | Raise e => (Raise e, self)
    end.
Proof.
  unfold set_fg_color, mbind, lift, assign.
  now destruct (color_of_args color rgb).
Qed.

Lemma set_bg_color_cases (color : color_arg) (rgb : rgb_arg) (self : builder) :
  set_bg_color color rgb self
  = match color_of_args color rgb with
    | Return c => (Return tt, with_bg_color (Some (sgr_color "48" c)) self)
    | Raise e => (Raise e, self)
    end.
Proof.
  unfold set_bg_color, mbind, lift, assign.
  now destruct (color_of_args color rgb).
Qed.

(** [set_theme] with one of the two known names. *)
Lemma set_theme_dark (self : builder) :
  set_theme "dark" self
  = (Return tt,
     {| _styles := _styles self; _fg_color := Some "38;2;224;224;224";
        _bg_color := Some "48;2;30;30;30"; _theme := "dark";
        _negative := _negative self |}).
Proof. vm_compute. reflexivity. Qed.

Lemma set_theme_light (self : builder) :
  set_theme "light" self
  = (Return tt,
     {| _styles := _styles self; _fg_color := Some "38;2;46;46;46";
        _bg_color := Some "48;2;240;240;240"; _theme := "light";
        _negative := _negative self |}).
Proof. vm_compute. reflexivity. Qed.

(** A call that is not a style setter leaves the style list alone. *)
Lemma styles_kept (c : call) (self : builder) :
  style_token c = None -> _styles (after c self) = _styles self.
Proof.
  destruct c as [e | e | e | color rgb | color rgb | theme | e | ];
    try discriminate; intros _; cbn [after].
  - rewrite set_fg_color_cases. now destruct (color_of_args color rgb).
  - rewrite set_bg_color_cases. now destruct (color_of_args color rgb).
  - destruct (string_dec theme "dark") as [-> | Hd];
      [now rewrite set_theme_dark | ].
    destruct (string_dec theme "light") as [-> | Hl];
      [now rewrite set_theme_light | ].
    now rewrite (perform_set_theme_unknown self theme Hd Hl).
  - reflexivity.
  - unfold build. now destruct (_negative self).
Qed.

Lemma reachable_styles (self : builder) :
  reachable self -> forallb is_style_code (_styles self) = true.
Proof.
  induction 1 as [theme self Hinit | c self Hr IH].
  - destruct (dict_get DEFAULT_COLORS theme) as [cs | ] eqn:Hget.
    + destruct (dict_get_known theme cs Hget) as [-> | ->].
      * rewrite init_dark in Hinit. now inversion Hinit.
      * rewrite init_light in Hinit. now inversion Hinit.
    + unfold init, _set_default_colors in Hinit. cbn [_theme] in Hinit.
      rewrite Hget in Hinit. discriminate.
  - destruct (style_token c) as [t | ] eqn:Ht.
    + rewrite (style_call_appends c t self Ht). cbn [_styles with_styles].
      rewrite forallb_app, IH. cbn [forallb andb].
      destruct c as [e | e | e | ? ? | ? ? | ? | ? | ]; try discriminate;
        injection Ht as <-; now destruct e.
    + now rewrite (styles_kept c self Ht).
Qed.

(** Every builder a caller can hold has a colour code in each slot, each
    of five fields, and only the six style codes in its style list: the
    slots are never empty after construction, whatever calls were made and
    whether they returned or raised. *)
Theorem reachable_builder_is_well_formed (self : builder) :
  reachable self ->
  (exists f b : string,
      codes self = (Some f, Some b)
      /\ f <> "" /\ b <> ""
      /\ count_char ";" f = 4%nat /\ count_char ";" b = 4%nat)
  /\ forall t, In t (_styles self) ->
       In t ["1"; "22"; "3"; "23"; "4"; "24"].
Proof.
  intros Hr. split.
  - destruct (reachable_codes self Hr)
      as [(f & Hf & Hfne & Hfc) (b & Hb & Hbne & Hbc)].
    exists f, b. unfold codes. rewrite Hf, Hb. repeat split; assumption.
  - intros t Hin. pose proof (reachable_styles self Hr) as Hs.
    rewrite forallb_forall in Hs. specialize (Hs t Hin).
    unfold is_style_code in Hs. apply existsb_exists in Hs as (u & Hu & E).
    apply String.eqb_eq in E. now subst.
Qed.

Lemma reachable_builder_is_well_formed_witness :
  (exists f b : string,
      codes same_codes_builder = (Some f, Some b)
      /\ f <> "" /\ b <> ""
      /\ count_char ";" f = 4%nat /\ count_char ";" b = 4%nat)
  /\ forall t, In t (_styles same_codes_builder) ->
       In t ["1"; "22"; "3"; "23"; "4"; "24"].
Proof.
  apply (reachable_builder_is_well_formed same_codes_builder).
  unfold same_codes_builder, after_all. cbn [fold_left].
  do 3 apply reachable_call. apply (reachable_init "dark"), init_dark.
Defined.

(** With the negative flag clear, [build()] on a builder a caller can hold
    returns the foreground code, the background code and the styles in call
    order, and leaves the builder as it is, so that any number of builds
    return the same text. *)
Theorem build_plain_is_pure (self : builder) :
  reachable self -> _negative self = false ->
  exists f b : string,
    codes self = (Some f, Some b)
    /\ build self = (Return (rendered f b (_styles self)), self)
    /\ build (snd (build self)) = build self.
Proof.
  intros Hr Hneg.
  destruct (reachable_codes self Hr)
    as [(f & Hf & Hfne & _) (b & Hb & Hbne & _)].
  exists f, b.
  assert (E : build self = (Return (rendered f b (_styles self)), self)).
  { unfold build, rendered. rewrite Hneg, Hf, Hb.
    destruct f as [ | cf f]; [congruence | ].
    destruct b as [ | cb b]; [congruence | ]. reflexivity. }
  split; [unfold codes; now rewrite Hf, Hb | ].
  split; [exact E | now rewrite E].
Qed.

Lemma build_plain_is_pure_witness :
  exists f b : string,
    codes (after (SetBold true) dark_builder) = (Some f, Some b)
    /\ build (after (SetBold true) dark_builder)
       = (Return (rendered f b (_styles (after (SetBold true) dark_builder))),
          after (SetBold true) dark_builder)
    /\ build (snd (build (after (SetBold true) dark_builder)))
       = build (after (SetBold true) dark_builder).
Proof.
  apply (build_plain_is_pure (after (SetBold true) dark_builder)).
  - apply reachable_call, (reachable_init "dark"), init_dark.
  - reflexivity.
Defined.

(** Clearing the negative flag does not undo a negative build: after
    [set_negative(True)], [build()], [set_negative(False)] the two slots
    hold each other's code, and every later plain build returns the
    background code first. *)
Theorem negative_off_does_not_restore (self : builder) :
  reachable self -> _negative self = false ->
  exists f b : string,
    codes self = (Some f, Some b)
    /\ codes (after_all [SetNegative true; Build; SetNegative false] self)
       = (Some b, Some f)
    /\ _negative (after_all [SetNegative true; Build; SetNegative false] self)
       = false
    /\ build (after_all [SetNegative true; Build; SetNegative false] self)
       = (Return (rendered b f (_styles self)),
          after_all [SetNegative true; Build; SetNegative false] self).
Proof.
  intros Hr Hneg.
  destruct (reachable_codes self Hr)
    as [(f & Hf & Hfne & _) (b & Hb & Hbne & _)].
  exists f, b. destruct self as [st fg0 bg0 th ng]. cbn in Hf, Hb, Hneg.
  subst fg0 bg0 ng.
  destruct f as [ | cf f]; [congruence | ].
  destruct b as [ | cb b]; [congruence | ].
  repeat split.
Qed.

Lemma negative_off_does_not_restore_witness :
  exists f b : string,
    codes dark_builder = (Some f, Some b)
    /\ codes (after_all [SetNegative true; Build; SetNegative false]
                        dark_builder)
       = (Some b, Some f)
    /\ _negative (after_all [SetNegative true; Build; SetNegative false]
                            dark_builder)
       = false
    /\ build (after_all [SetNegative true; Build; SetNegative false]
                        dark_builder)
       = (Return (rendered b f (_styles dark_builder)),
          after_all [SetNegative true; Build; SetNegative false]
                    dark_builder).
Proof.
  apply (negative_off_does_not_restore dark_builder).
  - apply (reachable_init "dark"), init_dark.
  - reflexivity.
Defined.

(** [set_theme] with a name of [DEFAULT_COLORS] returns and stores the two
    codes of that theme's colours, whatever the slots held before (explicit
    colours, or codes exchanged by a negative build); styles and the
    negative flag are kept, and a second call changes nothing more. *)
Theorem set_theme_known_resets_codes
    (self : builder) (theme : string) (defaults : colors) :
  dict_get DEFAULT_COLORS theme = Some defaults ->
  exists cf cb : Z * Z * Z,
    _normalize_color (fg defaults) = Return cf
    /\ _normalize_color (bg defaults) = Return cb
    /\ set_theme theme self
       = (Return tt,
          {| _styles := _styles self;
             _fg_color := Some (sgr_color "38" cf);
             _bg_color := Some (sgr_color "48" cb);
             _theme := theme; _negative := _negative self |})
    /\ set_theme theme (snd (set_theme theme self)) = set_theme theme self.
Proof.
  intros Hget.
  assert (Hcs : (theme = "dark"
                 /\ defaults = {| fg := "#e0e0e0"; bg := "#1e1e1e" |})
                \/ (theme = "light"
                    /\ defaults = {| fg := "#2e2e2e"; bg := "#f0f0f0" |})).
  { destruct (dict_get_known theme defaults Hget) as [-> | ->];
      vm_compute in Hget; injection Hget as <-; [left | right]; now split. }
  destruct Hcs as [[-> ->] | [-> ->]].
  - exists (224, 224, 224), (30, 30, 30).
    rewrite !set_theme_dark. repeat split.
  - exists (46, 46, 46), (240, 240, 240).
    rewrite !set_theme_light. repeat split.
Qed.

Lemma set_theme_known_resets_codes_witness :
  exists cf cb : Z * Z * Z,
    _normalize_color "#2e2e2e" = Return cf
    /\ _normalize_color "#f0f0f0" = Return cb
    /\ set_theme "light" same_codes_builder
       = (Return tt,
          {| _styles := _styles same_codes_builder;
             _fg_color := Some (sgr_color "38" cf);
             _bg_color := Some (sgr_color "48" cb);
             _theme := "light"; _negative := _negative same_codes_builder |})
    /\ set_theme "light" (snd (set_theme "light" same_codes_builder))
       = set_theme "light" same_codes_builder.
Proof.
  apply (set_theme_known_resets_codes same_codes_builder "light"
           {| fg := "#2e2e2e"; bg := "#f0f0f0" |}).
  reflexivity.
Defined.



(** A colour setter that raises has changed nothing: whatever the
    arguments, after a failed [set_fg_color] or [set_bg_color] the builder
    is the one it was (unlike [set_theme], which keeps the new name). *)
Theorem color_setter_failure_changes_nothing
    (color : color_arg) (rgb : rgb_arg) (self : builder) (e : exn) :
  fst (set_fg_color color rgb self) = Raise e
  \/ fst (set_bg_color color rgb self) = Raise e ->
  set_fg_color color rgb self = (Raise e, self)
  /\ set_bg_color color rgb self = (Raise e, self).
Proof.
  rewrite set_fg_color_cases, set_bg_color_cases.
  destruct (color_of_args color rgb) as [c | e'];
    intros [H | H]; cbn [fst] in H; try discriminate;
    injection H as ->; now split.
Qed.

Lemma color_setter_failure_changes_nothing_witness :
  set_fg_color (Some "#12345") None dark_builder
  = (Raise (ValueError "Invalid HEX color format."), dark_builder)
  /\ set_bg_color (Some "#12345") None dark_builder
     = (Raise (ValueError "Invalid HEX color format."), dark_builder).
Proof.
  apply (color_setter_failure_changes_nothing (Some "#12345") None
           dark_builder (ValueError "Invalid HEX color format.")).
  left. reflexivity.
Defined.

(** How the two arguments are chosen: a non-empty colour string is used
    and [rgb] is not looked at, even when the string is invalid and [rgb]
    valid; without a colour string, an [rgb] sequence of a length other
    than three raises a [ValueError], and the empty one counts as absent
    and raises the invalid-specification [ValueError]. *)
Theorem color_arguments_selection
    (c : string) (rgb : rgb_arg) (t : list Z) :
  (c <> "" -> color_of_args (Some c) rgb = _normalize_color c)
  /\ (t <> [] -> List.length t <> 3%nat ->
      exists msg,
        color_of_args None (Some t) = Raise (ValueError msg)
        /\ color_of_args (Some "") (Some t) = Raise (ValueError msg))
  /\ color_of_args None (Some [])
     = Raise (ValueError
         "Invalid color specification. Provide either a color string or RGB tuple.")
  /\ color_of_args None None = color_of_args None (Some [])
  /\ color_of_args (Some "") None = color_of_args None (Some []).
Proof.
  split; [ | split; [ | repeat split]].
  - intros Hc. unfold color_of_args, given_color.
    destruct c; [congruence | reflexivity].
  - intros Hne Hlen. unfold color_of_args. cbn [given_color truthy].
    destruct t as [ | x [ | y [ | z [ | w t]]]]; cbn in Hlen; try congruence;
      eexists; split; reflexivity.
Qed.

Lemma color_arguments_selection_witness :
  color_of_args (Some "red") (Some [1; 2; 3])
  = Raise (ValueError "Unsupported color format. Use HEX or HSL.")
  /\ exists msg,
       color_of_args None (Some [1; 2]) = Raise (ValueError msg)
       /\ color_of_args (Some "") (Some [1; 2]) = Raise (ValueError msg).
Proof.
  destruct (color_arguments_selection "red" (Some [1; 2; 3]) [1; 2])
    as (Hc & Ht & _).
  split.
  - rewrite Hc; [reflexivity | discriminate].
  - apply Ht; discriminate.
Defined.

End BuilderExtras.

(** ** More on colour normalisation *)

Module ColorExtras.
Import Py AnsiEscapeCodeBuilder ColorTexts StringFacts ColorProperties.

(** Any number of leading [#] is accepted: the hexadecimal digits are what
    follows the last of them, so [##fff] and [###072448] are read as
    [#fff] and [#072448]. *)
Theorem leading_hashes_are_dropped (n : nat) (color : string) :
  prefix "#" color = true ->
  _normalize_color (hashes n ++ color) = _normalize_color color.
Proof.
  intros Hp. induction n as [ | n IH]; [reflexivity | ].
  cbn [hashes append]. rewrite <- IH.
  assert (Hq : prefix "#" (hashes n ++ color) = true).
  { destruct n; [exact Hp | ]. cbn [hashes append prefix].
    destruct (ascii_dec "#" "#") as [_ | N]; [ | now elim N].
    now destruct (hashes n ++ color). }
  unfold _normalize_color at 1 2. rewrite Hq.
  cbn [prefix]. destruct (ascii_dec "#" "#") as [_ | N]; [ | now elim N].
  replace (prefix "" (hashes n ++ color)) with true
    by (now destruct (hashes n ++ color)).
  cbn [lstrip]. rewrite Ascii.eqb_refl. reflexivity.
Qed.

Lemma leading_hashes_are_dropped_witness :
  _normalize_color "###072448" = Return (7, 36, 72).
Proof.
  refine (eq_trans (leading_hashes_are_dropped 2 "#072448" _) _);
    vm_compute; reflexivity.
Defined.

Lemma slice_hsl_text (body : string) (last : ascii) :
  slice_to_last 4 (hsl_text body last) = body.
Proof.
  unfold slice_to_last, hsl_text. cbn [append String.length substring].
  rewrite length_app. cbn [String.length].
  replace (S (S (S (S (String.length body + 1)))) - 1 - 4)%nat
    with (String.length body) by lia.
  apply substring_app_left.
Qed.

Lemma hsl_text_prefixes (body : string) (last : ascii) :
  prefix "#" (hsl_text body last) = false
  /\ prefix "hsl(" (hsl_text body last) = true.
Proof.
  unfold hsl_text. cbn [append prefix]. split.
  - now destruct (ascii_dec "#" "h").
  - repeat (destruct (ascii_dec _ _) as [_ | N]; [ | now elim N]).
    match goal with |- prefix "" ?x = true => now destruct x end.
Qed.

(** The HSL branch on a text whose body splits into the given fields. *)
Lemma normalize_hsl_fields
    (body : string) (last : ascii) (hue sat light : string)
    (rest : list string) (h s l : float) :
  split_on "," body = hue :: (sat ++ "%") :: (light ++ "%") :: rest ->
  contains "%" sat = false -> contains "%" light = false ->
  float_of_string hue = Return h ->
  float_of_string sat = Return s ->
  float_of_string light = Return l ->
  _normalize_color (hsl_text body last) = hsl_to_rgb255 h s l.
Proof.
  intros Hsplit PS PL Fh Fs Fl. unfold _normalize_color.
  destruct (hsl_text_prefixes body last) as [-> ->].
  rewrite slice_hsl_text, Hsplit.
  cbn [index nth_error bind]. rewrite Fh. cbn [bind].
  rewrite (strip_trailing "%" sat PS), Fs. cbn [bind].
  rewrite (strip_trailing "%" light PL), Fl. cbn [bind].
  reflexivity.
Qed.

(** The end of an HSL text is not checked: the last character, whatever
    it is, is dropped, and fields after the third are not read.  So
    [hsl(H,S%,L%] followed by any one character, or by a comma, any text
    and any one character, is read as [hsl(H,S%,L%)]. *)
Theorem hsl_tail_is_not_checked
    (hue sat light extra : string) (last : ascii) (h s l : float) :
  contains "," hue = false -> contains "," sat = false ->
  contains "," light = false ->
  contains "%" sat = false -> contains "%" light = false ->
  float_of_string hue = Return h ->
  float_of_string sat = Return s ->
  float_of_string light = Return l ->
  _normalize_color
    (hsl_text (hue ++ "," ++ sat ++ "%," ++ light ++ "%") last)
  = hsl_to_rgb255 h s l
  /\ _normalize_color
       (hsl_text (hue ++ "," ++ sat ++ "%," ++ light ++ "%," ++ extra) last)
     = hsl_to_rgb255 h s l.
Proof.
  intros HH HS HL PS PL Fh Fs Fl.
  assert (Cs : contains "," (sat ++ "%") = false)
    by (rewrite contains_app, HS; reflexivity).
  assert (Cl : contains "," (light ++ "%") = false)
    by (rewrite contains_app, HL; reflexivity).
  split.
  - apply (normalize_hsl_fields _ last hue sat light []); try assumption.
    replace (hue ++ "," ++ sat ++ "%," ++ light ++ "%")
      with (hue ++ String "," ((sat ++ "%") ++ String "," (light ++ "%")))
      by (repeat first [rewrite app_assoc | progress cbn [append]];
          reflexivity).
    rewrite split_on_first by assumption.
    rewrite split_on_first by assumption.
    now rewrite split_on_absent by assumption.
  - apply (normalize_hsl_fields _ last hue sat light (split_on "," extra));
      try assumption.
    replace (hue ++ "," ++ sat ++ "%," ++ light ++ "%," ++ extra)
      with (hue ++ String "," ((sat ++ "%")
              ++ String "," ((light ++ "%") ++ String "," extra)))
      by (repeat first [rewrite app_assoc | progress cbn [append]];
          reflexivity).
    now rewrite !split_on_first by assumption.
Qed.

Lemma hsl_tail_is_not_checked_witness :
  _normalize_color "hsl(210,50%,40%]" = Return (50, 101, 153)
  /\ _normalize_color "hsl(210,50%,40%,0.5, and more" = Return (50, 101, 153).
Proof.
  destruct (hsl_tail_is_not_checked "210" "50" "40" "0.5, and mor" "]"
              210 50 40) as [E1 _]; try (vm_compute; reflexivity).
  destruct (hsl_tail_is_not_checked "210" "50" "40" "0.5, and mor" "e"
              210 50 40) as [_ E2]; try (vm_compute; reflexivity).
  split.
  - exact (eq_trans E1 ltac:(vm_compute; reflexivity)).
  - exact (eq_trans E2 ltac:(vm_compute; reflexivity)).
Defined.

(** An HSL text with fewer than three fields raises [IndexError], not a
    [ValueError]: with a hue that parses and nothing else, and with a hue
    and a saturation that parse and no lightness. *)
Theorem hsl_missing_field_raises_IndexError
    (hue sat : string) (last : ascii) (h s : float) :
  contains "," hue = false ->
  float_of_string hue = Return h ->
  _normalize_color (hsl_text hue last) = Raise IndexError
  /\ (contains "," sat = false ->
      float_of_string (strip (Ascii.eqb "%") sat) = Return s ->
      _normalize_color (hsl_text (hue ++ "," ++ sat) last) = Raise IndexError).
Proof.
  intros HH Fh. split.
  - unfold _normalize_color.
    destruct (hsl_text_prefixes hue last) as [-> ->].
    rewrite slice_hsl_text, (split_on_absent "," hue HH).
    cbn [index nth_error bind]. rewrite Fh. reflexivity.
  - intros HS Fs. unfold _normalize_color.
    destruct (hsl_text_prefixes (hue ++ "," ++ sat) last) as [-> ->].
    rewrite slice_hsl_text. cbn [append].
    rewrite (split_on_first "," hue sat HH), (split_on_absent "," sat HS).
    cbn [index nth_error bind]. rewrite Fh. cbn [bind]. rewrite Fs.
    reflexivity.
Qed.

Lemma hsl_missing_field_raises_IndexError_witness :
  _normalize_color "hsl(120)" = Raise IndexError
  /\ _normalize_color "hsl(120,50%)" = Raise IndexError.
Proof.
  destruct (hsl_missing_field_raises_IndexError "120" "50%" ")" 120 50)
    as [E1 E2]; try (vm_compute; reflexivity).
  split; [exact E1 | ].
  apply E2; vm_compute; reflexivity.
Defined.

(** With a saturation of zero the hue plays no part: the three channels
    are the lightness fraction times 255, cut to an integer. *)
Theorem zero_saturation_is_gray
    (hue sat light : string) (last : ascii) (h s l : float) :
  contains "," hue = false -> contains "," sat = false ->
  contains "," light = false ->
  contains "%" sat = false -> contains "%" light = false ->
  float_of_string hue = Return h ->
  float_of_string sat = Return s ->
  float_of_string light = Return l ->
  PrimFloat.eqb (s / 100) 0 = true ->
  _normalize_color
    (hsl_text (hue ++ "," ++ sat ++ "%," ++ light ++ "%") last)
  = gray (l / 100 * 255).
Proof.
  intros HH HS HL PS PL Fh Fs Fl Hzero.
  assert (Cs : contains "," (sat ++ "%") = false)
    by (rewrite contains_app, HS; reflexivity).
  assert (Cl : contains "," (light ++ "%") = false)
    by (rewrite contains_app, HL; reflexivity).
  rewrite (normalize_hsl_fields _ last hue sat light [] h s l);
    try assumption.
  - unfold hsl_to_rgb255, colorsys.hls_to_rgb, gray. rewrite Hzero.
    now destruct (int_of_float (l / 100 * 255)).
  - replace (hue ++ "," ++ sat ++ "%," ++ light ++ "%")
      with (hue ++ String "," ((sat ++ "%") ++ String "," (light ++ "%")))
      by (repeat first [rewrite app_assoc | progress cbn [append]];
          reflexivity).
    rewrite split_on_first by assumption.
    rewrite split_on_first by assumption.
    now rewrite split_on_absent by assumption.
Qed.

Lemma zero_saturation_is_gray_witness :
  _normalize_color "hsl(123,0%,50%)" = Return (127, 127, 127).
Proof.
  refine (eq_trans
            (zero_saturation_is_gray "123" "0" "50" ")" 123 0 50
               _ _ _ _ _ _ _ _ _) _);
    vm_compute; reflexivity.
Defined.

End ColorExtras.

(** ** More on the manifest verifier *)

Module VerifierExtras.
Import Py os ThemeManager VerifierTraces VerifierProperties.

(** *** The decoder fails in one way *)





Lemma text_of_string_length (s : string) :
  List.length (text_of_string s) = String.length s.
Proof.
  unfold text_of_string. rewrite length_map.
  induction s as [ | c s IH]; [reflexivity | ].
  cbn [list_ascii_of_string List.length String.length]. now rewrite IH.
Qed.

Section Steps.

Variable self : ThemeManager.
Variable fs : filesystem.
Variable target : string.
Variable failure : option exn.

Local Abbreviation mp := (manifest_path self).

(** A line is passed over, or records a digest for the target, or is
    malformed. *)
Lemma line_cases (line : text) :
  passed_over self target line = true
  \/ (exists digest, recorded self target line = Some digest)
  \/ malformed line = true.
Proof.
  unfold passed_over, malformed, recorded.
  destruct (is_blank line); cbn [negb andb]; [now left | ].
  destruct (entry line) as [[name digest] | ]; [ | now right; right].
  destruct (text_eqb (text_of_string target)
              (path_join_text (text_of_string (themes_dir self)) name));
    [right; left; now exists digest | now left].
Qed.

(** The loop at the first entry for the target: the theme file is opened,
    and read and hashed when it opens. *)
Lemma scan_step_entry (line digest : text) (rest : list text) :
  recorded self target line = Some digest ->
  scan_manifest self fs mp target failure (line :: rest)
  = match fs target with
    | Some (File true content) =>
        if text_eqb (text_of_string (hashlib.sha256_hexdigest content))
                    digest
        then (Return true,
              [ReadLine mp line; Open target "rb"; Read target])
        else (Return false,
              [ReadLine mp line; Open target "rb"; Read target;
               Print "Theme {theme_file} does not match expected hash."
                     (Str target)])
    | Some (File false _) =>
        (Raise (IOError 13), [ReadLine mp line; Open target "rb"])
    | Some Directory =>
        (Raise (IOError 21), [ReadLine mp line; Open target "rb"])
    | None => (Raise (IOError 2), [ReadLine mp line; Open target "rb"])
    end.
Proof.
  unfold recorded, is_blank, entry. intros H. cbn [scan_manifest].
  destruct (nonempty (text_strip line)); cbn [negb] in H;
    [ | discriminate].
  destruct (text_split line) as [ | a [ | b [ | c l]]]; try discriminate.
  unfold open, throw. unfold iobind, emit, ret.
  destruct (text_eqb (text_of_string target)
              (path_join_text (text_of_string (themes_dir self)) a));
    [ | discriminate].
  injection H as ->.
  destruct (fs target) as [[ | [ | ] content] | ]; try reflexivity.
  now destruct (text_eqb (text_of_string (hashlib.sha256_hexdigest content))
                         digest).
Qed.

Lemma scan_step_unpack (line : text) (rest : list text) :
  malformed line = true ->
  scan_manifest self fs mp target failure (line :: rest)
  = (Raise (ValueError (unpack_error line)), [ReadLine mp line]).
Proof.
  unfold malformed, is_blank, entry, unpack_error. intros H.
  cbn [scan_manifest].
  destruct (nonempty (text_strip line)); cbn [negb andb] in H;
    [ | discriminate].
  destruct (text_split line) as [ | a [ | b [ | c l]]]; try discriminate;
    reflexivity.
Qed.


(** The events of the loop are the allowed ones, and at most one of them
    reads a whole file. *)
Lemma scan_events (lines : list text) :
  forallb (allowed target mp)
          (snd (scan_manifest self fs mp target failure lines))
  = true
  /\ (List.length
        (filter is_read
                (snd (scan_manifest self fs mp target failure lines)))
      <= 1)%nat.
Proof.
  assert (Et : String.eqb target target = true) by apply String.eqb_refl.
  assert (Em : String.eqb mp mp = true) by apply String.eqb_refl.
  induction lines as [ | line rest [IHa IHr]].
  - cbn [scan_manifest]. destruct failure; cbn; split; reflexivity || lia.
  - destruct (line_cases line) as [Hp | [[digest Hr] | Hm]].
    + rewrite (scan_step_passed_over self fs target failure line rest Hp).
      cbn [snd forallb allowed filter is_read]. rewrite Em, IHa.
      split; [reflexivity | exact IHr].
    + rewrite (scan_step_entry line digest rest Hr).
      destruct (fs target) as [[ | [ | ] content] | ];
        try destruct (text_eqb _ digest);
        cbn [snd forallb allowed filter is_read List.length];
        rewrite ?Em, ?Et; cbn; split; reflexivity || lia.
    + rewrite (scan_step_unpack line rest Hm).
      cbn [snd forallb allowed filter is_read List.length]. rewrite Em.
      split; [reflexivity | lia].
Qed.



End Steps.

(** The loop looks at the file system at the theme file only. *)
Lemma scan_frame (self : ThemeManager) (fs fs' : filesystem)
    (target : string) (failure : option exn) (lines : list text) :
  fs target = fs' target ->
  scan_manifest self fs (manifest_path self) target failure lines
  = scan_manifest self fs' (manifest_path self) target failure lines.
Proof.
  intros H. induction lines as [ | line rest IH]; [reflexivity | ].
  destruct (line_cases self target line) as [Hp | [[digest Hr] | Hm]].
  - rewrite !(scan_step_passed_over self _ target failure line rest Hp).
    now rewrite IH.
  - rewrite !(scan_step_entry self _ target failure line digest rest Hr).
    now rewrite H.
  - now rewrite !(scan_step_unpack self _ target failure line rest Hm).
Qed.

Section Calls.

Variable self : ThemeManager.
Variable theme_file : option string.

Local Abbreviation target := (target_path self theme_file).
Local Abbreviation mp := (manifest_path self).
Local Abbreviation scan fs m :=
  (scan_manifest self fs mp target (decoding_failure m) (manifest_lines m)).

(** The three ways a call goes, by what the file system holds. *)
Lemma validate_theme_cases (fs : filesystem) :
  (fs target = None
   /\ validate_theme self fs theme_file
      = (Return false,
         [Exists target false;
          Print "Theme file {theme_file} does not exist." (Str target)]))
  \/ (cannot_open fs mp = true
      /\ exists k,
           validate_theme self fs theme_file
           = (Return false,
              [Exists target true; Open mp "r";
               Print "Error reading MANIFEST file: {e}" (Exn (IOError k))]))
  \/ (exists m,
        fs mp = Some (File true m)
        /\ validate_theme self fs theme_file
           = match fst (scan fs m) with
             | Raise (IOError k) =>
                 (Return false,
                  Exists target true :: Open mp "r" :: snd (scan fs m)
                  ++ [Print "Error reading MANIFEST file: {e}"
                            (Exn (IOError k))])%list
             | r => (r, Exists target true :: Open mp "r" :: snd (scan fs m))
             end).
Proof.
  destruct (fs target) as [n | ] eqn:Ht.
  - destruct (cannot_open fs mp) eqn:Hm.
    + right; left. split; [reflexivity | ].
      exact (validate_theme_manifest_unopenable self fs theme_file n Ht Hm).
    + right; right. unfold cannot_open in Hm.
      destruct (fs mp) as [[ | [ | ] m] | ] eqn:Hfm; try discriminate.
      exists m. split; [reflexivity | ].
      exact (validate_theme_scans self fs theme_file n m Ht Hfm).
  - left. split; [reflexivity | ].
    exact (validate_theme_absent self fs theme_file Ht).
Qed.

End Calls.


(** [validate_theme] touches two paths only: every event of a call is the
    existence test of the theme file, the manifest opened as text for
    reading or one of its lines read, the theme file opened as bytes for
    reading or read, or a print; and the theme file is read at most
    once. *)
Theorem validate_theme_touches_two_files
    (self : ThemeManager) (fs : filesystem) (theme_file : option string) :
  forallb (allowed (target_path self theme_file) (manifest_path self))
          (snd (validate_theme self fs theme_file)) = true
  /\ (List.length (filter is_read (snd (validate_theme self fs theme_file)))
      <= 1)%nat.
Proof.
  assert (Et : String.eqb (target_path self theme_file)
                          (target_path self theme_file) = true)
    by apply String.eqb_refl.
  assert (Em : String.eqb (manifest_path self) (manifest_path self) = true)
    by apply String.eqb_refl.
  destruct (validate_theme_cases self theme_file fs)
    as [[_ ->] | [[_ [k ->]] | (m & _ & ->)]].
  - cbn [snd forallb allowed filter is_read List.length]. rewrite Et.
    split; [reflexivity | lia].
  - cbn [snd forallb allowed filter is_read List.length].
    rewrite Et, Em. split; [reflexivity | lia].
  - destruct (scan_events self fs (target_path self theme_file)
                (decoding_failure m) (manifest_lines m)) as [Ha Hr].
    destruct (fst (scan_manifest self fs _ _ _ (manifest_lines m)))
      as [v | [msg | | | k | ]];
      cbn [snd forallb allowed filter is_read];
      rewrite ?forallb_app, ?filter_app, ?length_app, Et, Em, Ha;
      cbn; split; reflexivity || lia.
Qed.

(** The outcome depends on the file system at the theme file and at the
    manifest only: two file systems that agree on these two paths give the
    same result and the same events. *)
Theorem validate_theme_depends_on_two_paths
    (self : ThemeManager) (fs fs' : filesystem) (theme_file : option string) :
  fs (target_path self theme_file) = fs' (target_path self theme_file) ->
  fs (manifest_path self) = fs' (manifest_path self) ->
  validate_theme self fs theme_file = validate_theme self fs' theme_file.
Proof.
  intros Ht Hm. unfold validate_theme.
  fold (target_path self theme_file). fold (manifest_path self).
  unfold path_exists, open. rewrite <- Ht, <- Hm.
  assert (Hs := scan_frame self fs fs' (target_path self theme_file)).
  specialize (fun failure lines => Hs failure lines Ht).
  destruct (fs (target_path self theme_file)); [ | reflexivity].
  destruct (fs (manifest_path self)) as [[ | [ | ] m] | ]; try reflexivity.
  cbv beta iota delta [iobind emit ret negb].
  destruct (text_lines m) as [lines failure].
  now rewrite <- (Hs failure lines).
Qed.

Lemma validate_theme_depends_on_two_paths_witness :
  validate_theme example_manager
    (example_fs (Some "abc") (Some (example_entry "a.theme")))
    (Some "themes.d/a.theme")
  = validate_theme example_manager
      (with_directory "themes.d/b.theme"
         (example_fs (Some "abc") (Some (example_entry "a.theme"))))
      (Some "themes.d/a.theme").
Proof.
  apply (validate_theme_depends_on_two_paths example_manager
           (example_fs (Some "abc") (Some (example_entry "a.theme")))
           (with_directory "themes.d/b.theme"
              (example_fs (Some "abc") (Some (example_entry "a.theme"))))
           (Some "themes.d/a.theme"));
    reflexivity.
Defined.


(** A theme file that exists but does not open (a directory, a file
    without read permission) makes [validate_theme] return [False] once
    the scan reaches an entry that names it, with the print that blames
    the manifest: the [IOError] of the theme file is caught by the same
    handler. *)
Theorem unreadable_theme_is_reported_as_manifest_error
    (self : ThemeManager) (fs : filesystem) (theme_file : option string)
    (n : node) (m : list byte) (pre post : list text)
    (line digest : text) :
  fs (target_path self theme_file) = Some n ->
  (forall content, n <> File true content) ->
  fs (manifest_path self) = Some (File true m) ->
  manifest_lines m = (pre ++ line :: post)%list ->
  forallb (passed_over self (target_path self theme_file)) pre = true ->
  recorded self (target_path self theme_file) line = Some digest ->
  exists k,
    validate_theme self fs theme_file
    = (Return false,
       Exists (target_path self theme_file) true
       :: Open (manifest_path self) "r"
       :: map (ReadLine (manifest_path self)) (pre ++ [line])
       ++ [Open (target_path self theme_file) "rb";
           Print "Error reading MANIFEST file: {e}" (Exn (IOError k))])%list.
Proof.
  intros Ht Hn Hm Hlines Hpre Hrec.
  rewrite (validate_theme_scans self fs theme_file n m Ht Hm), Hlines.
  cbv zeta. rewrite (scan_passed_over self fs _ _ _ _ Hpre).
  rewrite (scan_step_entry self fs _ _ line digest post Hrec), Ht.
  cbn [fst snd].
  destruct n as [ | [ | ] content];
    [exists 21 | now elim (Hn content) | exists 13];
    cbn [fst snd]; rewrite map_app, <- !List.app_assoc; reflexivity.
Qed.

Lemma unreadable_theme_is_reported_as_manifest_error_witness :
  exists k,
    validate_theme example_manager
      (with_directory "themes.d/a.theme"
         (example_fs None (Some (example_entry "a.theme"))))
      (Some "themes.d/a.theme")
    = (Return false,
       [Exists "themes.d/a.theme" true; Open "themes.d/MANIFEST" "r";
        ReadLine "themes.d/MANIFEST"
                 (text_of_string (example_entry "a.theme"));
        Open "themes.d/a.theme" "rb";
        Print "Error reading MANIFEST file: {e}" (Exn (IOError k))]).
Proof.
  apply (unreadable_theme_is_reported_as_manifest_error example_manager
           (with_directory "themes.d/a.theme"
              (example_fs None (Some (example_entry "a.theme"))))
           (Some "themes.d/a.theme") Directory
           (list_byte_of_string (example_entry "a.theme"))
           [] [] (text_of_string (example_entry "a.theme"))
           (text_of_string
              "ba7816bf8f01cfea414140de5dae2223b00361a396177a9cb410ff61f20015ad"));
    try (vm_compute; reflexivity).
  discriminate.
Defined.





(** *** The size of a digest *)

Lemma round_length (v : list Z) (kw : Z * Z) :
  List.length (hashlib.round v kw) = List.length v.
Proof.
  unfold hashlib.round.
  destruct v as [ | a [ | b [ | c [ | d [ | e [ | f [ | g [ | h [ | i v]]]]]]]]];
    reflexivity.
Qed.

Lemma rounds_length (kws : list (Z * Z)) (v : list Z) :
  List.length (fold_left hashlib.round kws v) = List.length v.
Proof.
  revert v. induction kws as [ | kw kws IH]; intros v; [reflexivity | ].
  cbn [fold_left]. now rewrite IH, round_length.
Qed.

Lemma compress_length (h block : list Z) :
  List.length (hashlib.compress h block) = List.length h.
Proof.
  unfold hashlib.compress.
  rewrite length_map, length_combine, rounds_length. apply Nat.min_id.
Qed.

Lemma sha256_words_length (data : list byte) :
  List.length (hashlib.sha256_words data) = 8%nat.
Proof.
  unfold hashlib.sha256_words.
  generalize (hashlib.blocks
                (List.length
                   (hashlib.pad (map (fun b => Z.of_N (Byte.to_N b)) data)))
                (hashlib.words
                   (hashlib.pad (map (fun b => Z.of_N (Byte.to_N b)) data)))).
  intros bs.
  assert (H : List.length hashlib.H0 = 8%nat) by reflexivity.
  revert H. generalize hashlib.H0.
  induction bs as [ | b bs IH]; intros h H; [exact H | ].
  cbn [fold_left]. apply IH. now rewrite compress_length.
Qed.

Lemma hex_word_length (w : Z) : String.length (hashlib.hex_word w) = 8%nat.
Proof. reflexivity. Qed.

(** A hexdigest has sixty-four characters, whatever was hashed. *)
Lemma sha256_hexdigest_length (data : list byte) :
  String.length (hashlib.sha256_hexdigest data) = 64%nat.
Proof.
  unfold hashlib.sha256_hexdigest.
  pose proof (sha256_words_length data) as H.
  destruct (hashlib.sha256_words data)
    as [ | a [ | b [ | c [ | d [ | e [ | f [ | g [ | h [ | i v]]]]]]]]];
    try discriminate.
  cbn [map String.concat append].
  now rewrite !StringFacts.length_app, !hex_word_length.
Qed.

(** An entry whose recorded digest is not sixty-four characters long
    never validates: when it is the first entry naming the theme file, a
    readable file, [validate_theme] prints the mismatch and returns
    [False], whatever the file holds. *)
Theorem digest_of_another_length_never_matches
    (self : ThemeManager) (fs : filesystem) (theme_file : option string)
    (content m : list byte) (pre post : list text) (line digest : text) :
  fs (target_path self theme_file) = Some (File true content) ->
  fs (manifest_path self) = Some (File true m) ->
  manifest_lines m = (pre ++ line :: post)%list ->
  forallb (passed_over self (target_path self theme_file)) pre = true ->
  recorded self (target_path self theme_file) line = Some digest ->
  List.length digest <> 64%nat ->
  validate_theme self fs theme_file
  = (Return false,
     Exists (target_path self theme_file) true
     :: Open (manifest_path self) "r"
     :: map (ReadLine (manifest_path self)) (pre ++ [line])
     ++ [Open (target_path self theme_file) "rb";
         Read (target_path self theme_file);
         Print "Theme {theme_file} does not match expected hash."
               (Str (target_path self theme_file))])%list.
Proof.
  intros Ht Hm Hlines Hpre Hrec Hlen.
  rewrite (validate_theme_scans self fs theme_file _ m Ht Hm), Hlines.
  cbv zeta. rewrite (scan_passed_over self fs _ _ _ _ Hpre).
  rewrite (scan_step_entry self fs _ _ line digest post Hrec), Ht.
  destruct (text_eqb (text_of_string (hashlib.sha256_hexdigest content))
                     digest) eqn:E.
  - apply text_eqb_eq in E. elim Hlen. rewrite <- E.
    rewrite text_of_string_length. apply sha256_hexdigest_length.
  - cbn [fst snd]. rewrite map_app, <- !List.app_assoc. reflexivity.
Qed.

Lemma digest_of_another_length_never_matches_witness :
  validate_theme example_manager
    (example_fs (Some "abc")
       (Some "a.theme a9993e364706816aba3e25717850c26c9cd0d89d"))
    (Some "themes.d/a.theme")
  = (Return false,
     [Exists "themes.d/a.theme" true; Open "themes.d/MANIFEST" "r";
      ReadLine "themes.d/MANIFEST"
        (text_of_string "a.theme a9993e364706816aba3e25717850c26c9cd0d89d");
      Open "themes.d/a.theme" "rb"; Read "themes.d/a.theme";
      Print "Theme {theme_file} does not match expected hash."
            (Str "themes.d/a.theme")]).
Proof.
  apply (digest_of_another_length_never_matches example_manager
           (example_fs (Some "abc")
              (Some "a.theme a9993e364706816aba3e25717850c26c9cd0d89d"))
           (Some "themes.d/a.theme")
           (list_byte_of_string "abc")
           (list_byte_of_string
              "a.theme a9993e364706816aba3e25717850c26c9cd0d89d")
           [] []
           (text_of_string "a.theme a9993e364706816aba3e25717850c26c9cd0d89d")
           (text_of_string "a9993e364706816aba3e25717850c26c9cd0d89d"));
    try (vm_compute; reflexivity).
  vm_compute. discriminate.
Defined.

End VerifierExtras.

(** ** The configuration and the module body of [hue.py] *)

Module ProgramProperties.
Import Py os ThemeManager hue VerifierProperties.

Section Program.

Variable fs : filesystem.
Variable json_load : list byte -> result (list (string * string)).
Variable Theme : Type.
Variable from_file : string -> result (option Theme).
Variable list_theme_attributes : Theme -> result string.

Local Abbreviation new_manager := (new_ThemeManager fs json_load).
Local Abbreviation program :=
  (main fs json_load Theme from_file list_theme_attributes).
Local Abbreviation import :=
  (on_import fs json_load Theme from_file).

(** [load_config] and [__init__] when the configuration file does not
    open. *)
Lemma new_manager_without_config :
  cannot_open fs "hue.config" = true ->
  exists k,
    new_manager
    = (Return example_manager,
       [Open "hue.config" "r";
        Print "Error reading config file: {e}" (Exn (IOError k))]).
Proof.
  unfold cannot_open, new_ThemeManager, load_config, open. intros H.
  destruct (fs "hue.config") as [[ | [ | ] c] | ]; try discriminate;
    eexists; reflexivity.
Qed.

Lemma new_manager_with_config
    (content : list byte) (config : list (string * string)) :
  fs "hue.config" = Some (File true content) ->
  json_load content = Return config ->
  new_manager
  = (Return
       {| default_theme := config_get config "default_theme" "monokai";
          themes_dir := config_get config "themes_dir" "themes.d";
          manifest_file := config_get config "manifest_file" "MANIFEST";
          log_file := config_get config "log_file" "theme.log" |},
     [Open "hue.config" "r"]).
Proof.
  unfold new_ThemeManager, load_config, open. intros -> H. cbn.
  rewrite H. reflexivity.
Qed.

Lemma new_manager_parse_error (content : list byte) (e : exn) :
  fs "hue.config" = Some (File true content) ->
  json_load content = Raise e ->
  (forall k, e <> IOError k) ->
  new_manager = (Raise e, [Open "hue.config" "r"]).
Proof.
  unfold new_ThemeManager, load_config, open. intros -> H Hk. cbn.
  rewrite H. cbn. destruct e as [msg | | | k | ]; try reflexivity.
  now elim (Hk k).
Qed.

(** Without a configuration file that opens, the manager is built on the
    four defaults, after a print of the error; the default verification
    is then of [themes.d/monokai] against [themes.d/MANIFEST].  With a
    configuration that lacks a key, that attribute alone takes its
    default. *)
Theorem manager_defaults
    (content : list byte) (config : list (string * string)) :
  (cannot_open fs "hue.config" = true ->
   exists k,
     new_manager
     = (Return
          {| default_theme := "monokai"; themes_dir := "themes.d";
             manifest_file := "MANIFEST"; log_file := "theme.log" |},
        [Open "hue.config" "r";
         Print "Error reading config file: {e}" (Exn (IOError k))]))
  /\ target_path example_manager None = "themes.d/monokai"
  /\ manifest_path example_manager = "themes.d/MANIFEST"
  /\ (fs "hue.config" = Some (File true content) ->
      json_load content = Return config ->
      exists self,
        new_manager = (Return self, [Open "hue.config" "r"])
        /\ (AnsiEscapeCodeBuilder.dict_get config "default_theme" = None ->
            default_theme self = "monokai")
        /\ (AnsiEscapeCodeBuilder.dict_get config "themes_dir" = None ->
            themes_dir self = "themes.d")
        /\ (AnsiEscapeCodeBuilder.dict_get config "manifest_file" = None ->
            manifest_file self = "MANIFEST")
        /\ (AnsiEscapeCodeBuilder.dict_get config "log_file" = None ->
            log_file self = "theme.log")
        /\ forall v,
             AnsiEscapeCodeBuilder.dict_get config "themes_dir" = Some v ->
             themes_dir self = v).
Proof.
  split; [exact new_manager_without_config | ].
  split; [reflexivity | split; [reflexivity | ]].
  intros Hfs Hj. eexists. split;
    [exact (new_manager_with_config content config Hfs Hj) | ].
  cbn [default_theme themes_dir manifest_file log_file]. unfold config_get.
  repeat split; intros; now rewrite H.
Qed.

(** A configuration file that opens but does not parse stops the program
    before anything else: the error of [json.load] is not an [IOError],
    is not caught, and leaves the module body, run as a program with any
    arguments or imported, with the configuration file opened and nothing
    more. *)
Theorem config_parse_error_stops_the_program
    (content : list byte) (e : exn) (args : arguments) :
  fs "hue.config" = Some (File true content) ->
  json_load content = Raise e ->
  (forall k, e <> IOError k) ->
  program args = (Raise e, [Io (Open "hue.config" "r")])
  /\ import = (Raise e, [Io (Open "hue.config" "r")]).
Proof.
  intros Hfs Hj Hk. unfold main, on_import.
  rewrite (new_manager_parse_error content e Hfs Hj Hk). split; reflexivity.
Qed.

(** Run without a theme argument, the program ignores both flags: it
    loads the default theme first, right after logging is set up, then
    always verifies it (the skip notice is never logged), and a failed
    verification raises although the theme has been loaded. *)
Theorem program_without_theme_always_validates
    (args : arguments) (self : ThemeManager) (t0 : list event) :
  given (theme args) = None ->
  new_manager = (Return self, t0) ->
  program args = program {| load := false; validate := true; theme := None |}
  /\ forallb (fun x => negb (is_skip_notice x)) (snd (program args)) = true
  /\ (exists rest,
        snd (program args)
        = (map Io t0
           ++ BasicConfig (log_file self)
           :: FromFile (path_join (themes_dir self) (default_theme self))
           :: rest)%list)
  /\ (forall loaded,
        from_file (path_join (themes_dir self) (default_theme self))
        = Return loaded ->
        fst (validate_theme self fs None) = Return false ->
        fst (program args) = Raise (ValueError "Failed to validate theme.")).
Proof.
  intros Hg Hnew.
  assert (E : program args
              = program {| load := false; validate := true; theme := None |}).
  { unfold main. rewrite Hg. cbn [theme given validate].
    unfold bound_method_is_true. now rewrite orb_true_r. }
  split; [exact E | ]. rewrite E. clear E.
  unfold main. rewrite Hnew. cbn [theme given validate orb].
  unfold get_theme_instance, setup_logging, log_message, say_attributes.
  unfold of_io, of_result, act, done, fail.
  cbn [then_ fst snd].
  destruct (from_file (path_join (themes_dir self) (default_theme self)))
    as [[th | ] | e]; cbn [then_ fst snd app];
    destruct (validate_theme self fs None) as [[[ | ] | e'] tv];
    cbn [then_ fst snd app negb];
    try destruct (list_theme_attributes th) as [attrs | e''];
    cbn [then_ fst snd app];
    (split; [ | split; [eexists; reflexivity | ]]);
    try (intros loaded Hl Hv; congruence || discriminate);
    rewrite ?forallb_app; cbn [forallb is_skip_notice negb andb];
    rewrite ?forallb_app; cbn [forallb is_skip_notice negb andb];
    rewrite ?andb_true_r;
    repeat (apply andb_true_intro; split);
    try reflexivity;
    apply forallb_forall; intros x Hx;
    apply in_map_iff in Hx as (ev & <- & _); reflexivity.
Qed.

(** Building the manager opens the configuration file and may print: it
    tests and reads no theme file and no manifest. *)
Lemma new_manager_trace :
  forallb (fun x => negb (is_verification x)) (map Io (snd new_manager))
  = true.
Proof.
  unfold new_ThemeManager, load_config, open.
  destruct (fs "hue.config") as [[ | [ | ] c] | ]; try reflexivity.
  cbn. destruct (json_load c) as [config | [msg | | | k | ]]; reflexivity.
Qed.

(** With a theme argument and the validate flag, the program verifies
    and never loads: [Theme.from_file] is not called, the load flag plays
    no part, the body returns exactly on a verdict of [True], and a
    verdict of [False] raises the [ValueError] that names the theme. *)
Theorem program_validate_only_never_loads
    (args : arguments) (t : string) (self : ThemeManager) (t0 : list event) :
  given (theme args) = Some t ->
  validate args = true ->
  new_manager = (Return self, t0) ->
  forallb (fun x => negb (is_from_file x)) (snd (program args)) = true
  /\ program args
     = program {| load := negb (load args); validate := true;
                  theme := theme args |}
  /\ (fst (program args) = Return tt
      <-> fst (validate_theme self fs (Some t)) = Return true)
  /\ (fst (validate_theme self fs (Some t)) = Return false ->
      fst (program args)
      = Raise (ValueError ("Failed to validate theme: " ++ t))).
Proof.
  intros Hg Hv Hnew.
  assert (E : program args
              = program {| load := negb (load args); validate := true;
                           theme := theme args |}).
  { unfold main. cbn [theme validate load]. now rewrite Hg, Hv. }
  split; [ | split; [exact E | ]];
    unfold main; rewrite Hnew, Hg, Hv;
    unfold setup_logging, log_message, of_io, act, done, fail;
    cbn [then_ fst snd];
    destruct (validate_theme self fs (Some t)) as [[[ | ] | e] tv];
    cbn [then_ fst snd app negb].
  1-3: rewrite ?forallb_app; cbn [forallb is_from_file negb andb];
    rewrite ?forallb_app; cbn [forallb is_from_file negb andb];
    rewrite ?andb_true_r;
    repeat (apply andb_true_intro; split); try reflexivity;
    apply forallb_forall; intros x Hx;
    apply in_map_iff in Hx as (ev & <- & _); reflexivity.
  all: split; [split | ]; intros; congruence.
Qed.

(** Loading is never preceded by a verification when the validate flag
    is absent: imported, or run with a theme argument and without the
    validate flag, the module body neither tests nor reads a theme file or
    a manifest; and with a theme argument and neither flag it only sets
    logging up and prints that no action was specified. *)
Theorem loading_is_not_verified
    (args : arguments) (t : string) (self : ThemeManager) (t0 : list event) :
  new_manager = (Return self, t0) ->
  forallb (fun x => negb (is_verification x)) (snd import) = true
  /\ (given (theme args) = Some t -> validate args = false ->
      forallb (fun x => negb (is_verification x)) (snd (program args)) = true
      /\ (load args = false ->
          program args
          = (Return tt,
             map Io t0
             ++ [BasicConfig (log_file self);
                 Say
                   "No action specified. Use -l/--load or -v/--validate with -t/--theme."
                   None])%list)).
Proof.
  intros Hnew.
  assert (Ht0 : forallb (fun x => negb (is_verification x)) (map Io t0)
                = true).
  { pose proof new_manager_trace as H. rewrite Hnew in H. exact H. }
  split.
  - unfold on_import. rewrite Hnew.
    unfold get_theme_instance, setup_logging, log_message.
    unfold of_io, of_result, act, done, fail. cbn [then_ fst snd].
    destruct (from_file (path_join (themes_dir self) (default_theme self)))
      as [[th | ] | e]; cbn [then_ fst snd app];
      rewrite forallb_app, Ht0; reflexivity.
  - intros Hg Hv. split.
    + unfold main. rewrite Hnew, Hg, Hv.
      unfold get_theme_instance, setup_logging, log_message, say_attributes.
      unfold of_io, of_result, act, done, fail. cbn [then_ fst snd].
      destruct (load args); cbn [then_ fst snd app];
        [ | rewrite forallb_app, Ht0; reflexivity].
      unfold given in Hg. destruct (theme args) as [u | ]; [ | discriminate].
      destruct (truthy u) eqn:Hu; [ | discriminate]. injection Hg as ->.
      rewrite Hu.
      destruct (from_file t) as [[th | ] | e]; cbn [then_ fst snd app];
        try destruct (list_theme_attributes th) as [attrs | e'];
        cbn [then_ fst snd app];
        rewrite forallb_app, Ht0; reflexivity.
    + intros Hl. unfold main. rewrite Hnew, Hg, Hv, Hl.
      unfold setup_logging, of_io, act. cbn [then_ fst snd].
      reflexivity.
Qed.

(** Imported, the module binds [THEME] only to a true value that
    [Theme.from_file] returned for the default theme path, and raises the
    failed-to-load [ValueError] when [from_file] returns a false one. *)
Theorem import_binds_a_loaded_theme
    (self : ThemeManager) (t0 : list event) :
  new_manager = (Return self, t0) ->
  (forall t, fst import = Return t ->
     from_file (path_join (themes_dir self) (default_theme self))
     = Return (Some t))
  /\ (from_file (path_join (themes_dir self) (default_theme self))
      = Return None ->
      import
      = (Raise (ValueError "Failed to load default theme."),
         map Io t0
         ++ [BasicConfig (log_file self);
             FromFile (path_join (themes_dir self) (default_theme self));
             Info "Failed to load default theme." None])%list).
Proof.
  intros Hnew. unfold on_import. rewrite Hnew.
  unfold get_theme_instance, setup_logging, log_message.
  unfold of_io, of_result, act, done, fail. cbn [then_ fst snd].
  destruct (from_file (path_join (themes_dir self) (default_theme self)))
    as [[th | ] | e]; cbn [then_ fst snd app]; split;
    intros; congruence.
Qed.

End Program.

Lemma manager_defaults_witness :
  exists k,
    new_ThemeManager (example_fs None None) empty_object
    = (Return example_manager,
       [Open "hue.config" "r";
        Print "Error reading config file: {e}" (Exn (IOError k))]).
Proof.
  refine (proj1 (manager_defaults (example_fs None None) empty_object
                   [] []) _).
  reflexivity.
Defined.

Lemma config_parse_error_stops_the_program_witness :
  main (configured_fs "{") no_json string path_theme path_attributes
       {| load := true; validate := true; theme := None |}
  = (Raise (ValueError "Expecting value"), [Io (Open "hue.config" "r")]).
Proof.
  refine (proj1 (config_parse_error_stops_the_program (configured_fs "{")
                   no_json string path_theme path_attributes
                   (list_byte_of_string "{") (ValueError "Expecting value")
                   {| load := true; validate := true; theme := None |}
                   _ _ _));
    try reflexivity.
  discriminate.
Defined.

Lemma program_without_theme_always_validates_witness :
  main (configured_fs "{}") empty_object string path_theme path_attributes
       {| load := false; validate := false; theme := Some "" |}
  = main (configured_fs "{}") empty_object string path_theme path_attributes
         {| load := false; validate := true; theme := None |}.
Proof.
  refine (proj1 (program_without_theme_always_validates
                   (configured_fs "{}") empty_object string path_theme
                   path_attributes
                   {| load := false; validate := false; theme := Some "" |}
                   example_manager [Open "hue.config" "r"] _ _));
    reflexivity.
Defined.

Lemma program_validate_only_never_loads_witness :
  forallb (fun x => negb (is_from_file x))
    (snd (main (configured_fs "{}") empty_object string path_theme
            path_attributes
            {| load := true; validate := true;
               theme := Some "themes.d/a.theme" |}))
  = true.
Proof.
  refine (proj1 (program_validate_only_never_loads (configured_fs "{}")
                   empty_object string path_theme path_attributes
                   {| load := true; validate := true;
                      theme := Some "themes.d/a.theme" |}
                   "themes.d/a.theme" example_manager
                   [Open "hue.config" "r"] _ _ _));
    reflexivity.
Defined.

Lemma loading_is_not_verified_witness :
  forallb (fun x => negb (is_verification x))
    (snd (on_import (configured_fs "{}") empty_object string path_theme))
  = true.
Proof.
  refine (proj1 (loading_is_not_verified (configured_fs "{}") empty_object
                   string path_theme path_attributes
                   {| load := true; validate := false;
                      theme := Some "themes.d/a.theme" |}
                   "themes.d/a.theme" example_manager
                   [Open "hue.config" "r"] _)).
  reflexivity.
Defined.

Lemma import_binds_a_loaded_theme_witness :
  fst (on_import (configured_fs "{}") empty_object string path_theme)
  = Return "themes.d/monokai"
  /\ path_theme "themes.d/monokai" = Return (Some "themes.d/monokai").
Proof.
  split; [reflexivity | ].
  refine (proj1 (import_binds_a_loaded_theme (configured_fs "{}")
                   empty_object string path_theme example_manager
                   [Open "hue.config" "r"] _) "themes.d/monokai" _);
    reflexivity.
Defined.

End ProgramProperties.
